(** * Belgian national number (NN, NISS): src/be/nn.ts

    A shallow embedding of the validator in [src/be/nn.ts] and the proofs of
    its properties.  The file has three layers:

    - [JS]: the few ECMAScript built-ins the validator calls ([parseInt],
      number-to-string conversion, [%], [+], [<=], [===], [String.split],
      and [Date] parsing of date-only ISO strings);
    - [Util]: the helpers of the repository that [nn.ts] imports from
      [../util], [../exceptions] and [../types];
    - [NN]: the validator itself, function by function. *)

From Stdlib Require Import ZArith Zdivisibility List String Ascii Bool Lia.
From Stdlib Require Import DecimalString.
Import ListNotations.

Local Open Scope string_scope.
Local Open Scope Z_scope.

(** ** ECMAScript built-ins *)

Module JS.

(** A JavaScript number that holds an integer, or NaN ([None]).  Every
    number the validator does arithmetic on has at most ten decimal digits, far
    below 2^53, so doubles are exact there; the one parse of a string of
    unbounded length ([parseInt(number, 10) <= 0]) is only compared with
    zero, and rounding to a double never changes the sign. *)
Definition number := option Z.

(** Strings are sequences of 8-bit characters here (JavaScript has 16-bit
    code units); digits, separators and ASCII white space are the same. *)
Definition is_digit (c : ascii) : bool :=
  let n := nat_of_ascii c in ((48 <=? n) && (n <=? 57))%nat.

Definition digit_value (c : ascii) : Z := Z.of_nat (nat_of_ascii c) - 48.

(** StrWhiteSpaceChar, restricted to ASCII: TAB, LF, VT, FF, CR, SP. *)
Definition is_white_space (c : ascii) : bool :=
  let n := nat_of_ascii c in (((9 <=? n) && (n <=? 13)) || (n =? 32))%nat.

Fixpoint trim_start (s : string) : string :=
  match s with
  | String c s' => if is_white_space c then trim_start s' else s
  | EmptyString => s
  end.

(** The value of the longest prefix of decimal digits of [s], continuing
    from [acc]. *)
Fixpoint parse_digits (s : string) (acc : Z) : Z :=
  match s with
  | String c s' => if is_digit c then parse_digits s' (10 * acc + digit_value c) else acc
  | EmptyString => acc
  end.

(** [parseInt(s, 10)]: leading white space is skipped, one sign is read,
    then the longest prefix of digits; NaN when that prefix is empty. *)
Definition parseInt (s : string) : number :=
  let t := trim_start s in
  let '(sign, body) :=
    match t with
    | String "-" t' => (-1, t')
    | String "+" t' => (1, t')
    | _ => (1, t)
    end in
  match body with
  | String c _ => if is_digit c then Some (sign * parse_digits body 0) else None
  | EmptyString => None
  end.

(** [`${n}`] for a number: its decimal digits, or ["NaN"]. *)
Definition number_to_string (n : number) : string :=
  match n with
  | Some z => NilZero.string_of_int (Z.to_int z)
  | None => "NaN"
  end.

(** [a <= b], [a < b] and [a === b] on numbers: false when either is NaN. *)
Definition le (a b : number) : bool :=
  match a, b with
  | Some x, Some y => x <=? y
  | _, _ => false
  end.

Definition lt (a b : number) : bool :=
  match a, b with
  | Some x, Some y => x <? y
  | _, _ => false
  end.

Definition strict_eq (a b : number) : bool :=
  match a, b with
  | Some x, Some y => x =? y
  | _, _ => false
  end.

Definition add (a b : number) : number :=
  match a, b with
  | Some x, Some y => Some (x + y)
  | _, _ => None
  end.

(** [a % b]: the remainder has the sign of the dividend; NaN for [b = 0]. *)
Definition rem (a b : number) : number :=
  match a, b with
  | Some x, Some y => if y =? 0 then None else Some (Z.rem x y)
  | _, _ => None
  end.

(** [s.split(sep)] for a one-character separator. *)
Fixpoint split (sep : ascii) (s : string) : list string :=
  match s with
  | EmptyString => [EmptyString]
  | String c s' =>
      if Ascii.eqb c sep then EmptyString :: split sep s'
      else match split sep s' with
           | h :: t => String c h :: t
           | [] => [String c EmptyString]
           end
  end.

(** Calendar arithmetic of the Date object (ECMAScript, "Day Number and
    Time within Day", "Year Number", "Month Number"). *)
Definition msPerDay : Z := 86400000.

Definition InLeapYear (y : Z) : bool :=
  ((y mod 4 =? 0) && negb (y mod 100 =? 0)) || (y mod 400 =? 0).

Definition DaysInMonth (y m : Z) : Z :=
  if m =? 2 then (if InLeapYear y then 29 else 28)
  else if (m =? 4) || (m =? 6) || (m =? 9) || (m =? 11) then 30
  else 31.

Definition DayFromYear (y : Z) : Z :=
  365 * (y - 1970) + (y - 1969) / 4 - (y - 1901) / 100 + (y - 1601) / 400.

(** Days of year [y] before the first day of month [m] (1-based). *)
Fixpoint days_before (y : Z) (m : nat) : Z :=
  match m with
  | O => 0
  | S O => 0
  | S m' => days_before y m' + DaysInMonth y (Z.of_nat m')
  end.

(** The time value, in milliseconds since the epoch, of midnight UTC of
    the day [y]-[m]-[d]. *)
Definition MakeDate (y m d : Z) : Z :=
  (DayFromYear y + days_before y (Z.to_nat m) + (d - 1)) * msPerDay.

Definition digits2 (a b : ascii) : Z := 10 * digit_value a + digit_value b.

Definition digits4 (a b c d : ascii) : Z :=
  1000 * digit_value a + 100 * digit_value b + 10 * digit_value c + digit_value d.

(** [new Date(s).valueOf()] for the two date-only forms of the ECMAScript
    date-time string format that the validator builds, [YYYY] and
    [YYYY-MM-DD]; both are read as UTC.  A month or day out of range makes
    the string no instance of the format, and so does every other string:
    the result is then an invalid date, whose time value is NaN. *)
Definition Date_parse (s : string) : number :=
  match s with
  | String y1 (String y2 (String y3 (String y4 rest))) =>
      if is_digit y1 && is_digit y2 && is_digit y3 && is_digit y4 then
        let y := digits4 y1 y2 y3 y4 in
        match rest with
        | EmptyString => Some (MakeDate y 1 1)
        | String "-" (String m1 (String m2 (String "-" (String d1 (String d2 EmptyString))))) =>
            if is_digit m1 && is_digit m2 && is_digit d1 && is_digit d2 then
              let m := digits2 m1 m2 in
              let d := digits2 d1 d2 in
              if (1 <=? m) && (m <=? 12) && (1 <=? d) && (d <=? DaysInMonth y m)
              then Some (MakeDate y m d)
              else None
            else None
        | _ => None
        end
      else None
  | _ => None
  end.

End JS.

(** ** Helpers of the repository that [nn.ts] imports *)

Module Util.

(** Modelled from the spec: the module [../exceptions] is not under src/.
    Section 7 of the specification lists the error kinds: a cleaning error
    raised by the normaliser, and the three kinds [validate] reports. *)
Inductive exception : Type :=
  | CleaningError
  | InvalidFormat
  | InvalidLength
  | InvalidChecksum.

(** Modelled from the spec: the type [ValidateReturn] of [../types] is not
    under src/.  Section 3: a tagged outcome, either
    [{isValid: true, compact, isIndividual, isCompany}] or
    [{isValid: false, error}]. *)
Inductive ValidateReturn : Type :=
  | Valid (compact : string) (isIndividual isCompany : bool)
  | Invalid (error : exception).

Definition isValid (r : ValidateReturn) : bool :=
  match r with
  | Valid _ _ _ => true
  | Invalid _ => false
  end.

(** How a call ends: with a value, or with a thrown exception. *)
Inductive completion (A : Type) : Type :=
  | Return (a : A)
  | Throw (e : exception).

Arguments Return {A} a.
Arguments Throw {A} e.

Fixpoint all_digits (s : string) : bool :=
  match s with
  | EmptyString => true
  | String c s' => JS.is_digit c && all_digits s'
  end.

(** Modelled from the spec: [strings.isdigits] is not under src/.  The
    specification calls its result "all-digits"; the empty string, which has
    no integer value, is not a digit string. *)
Definition isdigits (s : string) : bool :=
  match s with
  | EmptyString => false
  | String _ _ => all_digits s
  end.

Fixpoint splitAt_from (value : string) (start : nat) (points : list nat) : list string :=
  match points with
  | [] => [substring start (String.length value - start) value]
  | p :: ps => substring start (p - start) value :: splitAt_from value p ps
  end.

(** Modelled from the spec: [strings.splitAt] is not under src/.  Section 3
    describes its results as substrings extracted by fixed offsets:
    [splitAt(value, p1, ..., pn)] cuts [value] at the positions [p1 < ... < pn]
    and returns the n+1 pieces in order. *)
Definition splitAt (value : string) (points : list nat) : list string :=
  splitAt_from value 0 points.

(** Reading an array element; [undefined] is never produced here, because
    [splitAt] returns one piece more than it has points. *)
Definition item (i : nat) (a : list string) : string := nth i a EmptyString.

(** Modelled from the spec: the calendar check behind
    [isValidDateCompactYYYYMMDD] is not under src/.  Section 4.2: a date is
    calendar-valid when it respects month lengths and leap years. *)
Definition isValidDate (yyyy mm dd : JS.number) : bool :=
  match yyyy, mm, dd with
  | Some y, Some m, Some d =>
      (1 <=? m) && (m <=? 12) && (1 <=? d) && (d <=? JS.DaysInMonth y m)
  | _, _, _ => false
  end.

(** Modelled from the spec: [isValidDateCompactYYYYMMDD] is not under src/.
    It reads a compact date, four digits of year, two of month and two of day,
    and checks that it is calendar-valid. *)
Definition isValidDateCompactYYYYMMDD (yyyymmdd : string) : bool :=
  let parts := splitAt yyyymmdd [4%nat; 6%nat] in
  isValidDate (JS.parseInt (item 0 parts)) (JS.parseInt (item 1 parts))
              (JS.parseInt (item 2 parts)).

End Util.

(** ** The validator *)

Module NN.

Import Util.

(** *** Reading the clock

    [Date.now()] is the one effect of the validator: [isInPast] reads the
    clock each time it is called, up to four times in one call of [validate].
    A computation is a function of the number of readings made so far; it
    returns its result and the new count. *)
Definition Clock (A : Type) : Type := nat -> A * nat.

Definition ret {A : Type} (a : A) : Clock A := fun t => (a, t).

Definition bind {A B : Type} (m : Clock A) (k : A -> Clock B) : Clock B :=
  fun t => let '(a, t') := m t in k a t'.

Notation "x <- m ;; k" := (bind m (fun x => k))
  (at level 61, m at next level, right associativity).

(** [l.filter(p)]: the callback runs on every element, first to last. *)
Fixpoint filterM {A : Type} (p : A -> Clock bool) (l : list A) : Clock (list A) :=
  match l with
  | [] => ret []
  | x :: l' =>
      b <- p x ;;
      r <- filterM p l' ;;
      ret (if b then x :: r else r)
  end.

(** A value of type [string | number], and its text in a template literal. *)
Inductive string_or_number : Type :=
  | Str (s : string)
  | Num (n : JS.number).

Definition template (v : string_or_number) : string :=
  match v with
  | Str s => s
  | Num n => JS.number_to_string n
  end.

Section Validator.

(** [strings.cleanUnicode] is not under src/: the validator is verified for
    every cleaning utility.  It returns a value and an error or [null]. *)
Variable cleanUnicode : string -> string -> string * option exception.

(** [clock n] is what the call number [n] of [Date.now()] returns, in
    milliseconds since the epoch. *)
Variable clock : nat -> Z.

Definition Date_now : Clock Z := fun t => (clock t, S t).

Definition clean (input : string) : string * option exception :=
  cleanUnicode input " -.".

Definition compact (input : string) : completion string :=
  let '(value, err) := clean input in
  match err with
  | Some e => Throw e
  | None => Return value
  end.

Definition format (input : string) : string :=
  let '(value, _) := clean input in
  value.

Definition toDateArray (number : string) : list string :=
  firstn 3 (splitAt number [2%nat; 4%nat; 6%nat]).

Definition getChecksum (number : string) : JS.number :=
  let checksumString := item 1 (splitAt number [9%nat]) in
  JS.parseInt checksumString.

Definition getBaseNumber (number : string) : string :=
  item 0 (splitAt number [9%nat]).

Definition getFirstSix (number : string) : string :=
  item 0 (splitAt number [6%nat]).

Definition getFullYears (yy : string_or_number) : list JS.number :=
  [JS.parseInt ("19" ++ template yy); JS.parseInt ("20" ++ template yy)].

Definition ONE_DAY : Z := 1000 * 60 * 60 * 24.

Definition getApproximatelyNow : Clock Z :=
  now <- Date_now ;;
  ret (now + ONE_DAY).

Definition isInPast (date : string_or_number) : Clock bool :=
  let d := JS.Date_parse (template date) in
  cutoff <- getApproximatelyNow ;;
  ret (JS.le d (Some cutoff)).

Definition toChecksumBasis (year : JS.number) (baseNumber : string) : JS.number :=
  JS.parseInt (if JS.lt year (Some 2000) then baseNumber else "2" ++ baseNumber).

Definition getValidPastDates (yymmdd : string) : Clock (list string) :=
  let a := toDateArray yymmdd in
  let yy := item 0 a in
  let mm := item 1 a in
  let dd := item 2 a in
  filterM (fun date => isInPast (Str date))
    (map (fun yyyy => JS.number_to_string yyyy ++ "-" ++ mm ++ "-" ++ dd)
       (filter (fun yyyy => isValidDateCompactYYYYMMDD (JS.number_to_string yyyy ++ mm ++ dd))
          (getFullYears (Str yy)))).

Definition extractYearFromDate (date : string) : JS.number :=
  JS.parseInt (item 0 (JS.split "-" date)).

Definition getChecksumBasesForStandardDob (dob baseNumber : string) : Clock (list JS.number) :=
  validPastDates <- getValidPastDates dob ;;
  let validPastYears := map extractYearFromDate validPastDates in
  ret (map (fun year => toChecksumBasis year baseNumber) validPastYears).

Definition getChecksumBasesUnknownDob (dob baseNumber : string) : Clock (list JS.number) :=
  let yy := item 0 (toDateArray dob) in
  years <- filterM (fun year => isInPast (Num year)) (getFullYears (Str yy)) ;;
  ret (map (fun year => toChecksumBasis year baseNumber) years).

Definition isUnknownDob (dob : string) : bool :=
  let a := toDateArray dob in
  let yy := item 0 a in
  let mm := item 1 a in
  let dd := item 2 a in
  isdigits yy && String.eqb mm "00" && isdigits dd.

Definition getChecksumBases (number : string) : Clock (list JS.number) :=
  let firstSix := getFirstSix number in
  let baseNumber := getBaseNumber number in
  if isUnknownDob firstSix then getChecksumBasesUnknownDob firstSix baseNumber
  else getChecksumBasesForStandardDob firstSix baseNumber.

Definition isValidDob (dob : string) : Clock bool :=
  dates <- getValidPastDates dob ;;
  ret (negb (List.length dates =? 0)%nat).

(** [a || b] evaluates [b] only when [a] is false. *)
Definition isValidFirstSix (firstSix : string) : Clock bool :=
  if isUnknownDob firstSix then ret true else isValidDob firstSix.

(** The test of [some] in [validChecksum]: [csb % 97 + checksum === 97]. *)
Definition checksum_matches (checksum csb : JS.number) : bool :=
  JS.strict_eq (JS.add (JS.rem csb (Some 97)) checksum) (Some 97).

Definition validChecksum (number : string) : Clock bool :=
  checksumBases <- getChecksumBases number ;;
  let checksum := getChecksum number in
  ret (existsb (checksum_matches checksum) checksumBases).

Definition validStructure (number : string) : Clock bool :=
  let firstSix := getFirstSix number in
  isValidFirstSix firstSix.

Definition validate (input : string) : Clock (completion ValidateReturn) :=
  match compact input with
  | Throw e => ret (Throw e)
  | Return number =>
      if negb (isdigits number) || JS.le (JS.parseInt number) (Some 0) then
        ret (Return (Invalid InvalidFormat))
      else if negb (String.length number =? 11)%nat then
        ret (Return (Invalid InvalidLength))
      else
        structure <- validStructure number ;;
        if negb structure then ret (Return (Invalid InvalidFormat))
        else
          checksum <- validChecksum number ;;
          if negb checksum then ret (Return (Invalid InvalidChecksum))
          else ret (Return (Valid number true false))
  end.

End Validator.

(** *** A cleaning utility and clocks to run the validator on *)

Fixpoint string_mem (c : ascii) (s : string) : bool :=
  match s with
  | EmptyString => false
  | String c' s' => Ascii.eqb c c' || string_mem c s'
  end.

(** Modelled from the spec: [strings.cleanUnicode] is not under src/.
    Section 4.1: it removes the characters of the given set and returns a
    cleaning error when it rejects the input, "e.g. disallowed unicode".  The
    set it rejects is not specified; this instance rejects every character
    outside 7-bit ASCII and returns, with the error, what it had cleaned up to
    that character.  The theorems below hold for every cleaning utility;
    this one serves to run [validate] on concrete inputs. *)
Fixpoint sample_cleanUnicode (value deleteChars : string) : string * option exception :=
  match value with
  | EmptyString => (EmptyString, None)
  | String c rest =>
      if (128 <=? nat_of_ascii c)%nat then (EmptyString, Some CleaningError)
      else
        let '(cleaned, err) := sample_cleanUnicode rest deleteChars in
        if string_mem c deleteChars then (cleaned, err) else (String c cleaned, err)
  end.

(** A clock that stands still at 2023-11-14T22:13:20Z. *)
Definition sample_clock (n : nat) : Z := 1700000000000.

(** A cleaned value of eleven digits, character by character: the year,
    month and day of birth, three digits of serial number and two of
    checksum. *)
Definition eleven (y1 y2 m1 m2 d1 d2 s1 s2 s3 k1 k2 : ascii) : string :=
  String y1 (String y2 (String m1 (String m2 (String d1 (String d2
    (String s1 (String s2 (String s3 (String k1 (String k2 EmptyString)))))))))).

(** The relation of the checksum check on integers: [b % 97 + c = 97]. *)
Definition satisfies_checksum (b c : JS.number) : Prop :=
  exists bz cz : Z, b = Some bz /\ c = Some cz /\ Z.rem bz 97 + cz = 97.

(** A clock that stands still one day before 1985-03-15T00:00:00Z, and one
    that stands still one day before 1985-01-01T00:00:00Z. *)
Definition eve_clock (n : nat) : Z := 479606400000.

Definition new_year_eve_clock (n : nat) : Z := 473299200000.

(** Whether the year [year] is kept as a candidate, read off the four-digit
    year, the month and the day as integers, when every reading of the clock
    is [now]: for an unknown date of birth, the first of January of the year
    is not after the cutoff; otherwise the day is a calendar date that is not
    after the cutoff. *)
Definition century_accepted (now : Z) (unknown : bool) (year month day : Z) : bool :=
  if unknown then JS.MakeDate year 1 1 <=? now + ONE_DAY
  else isValidDate (Some year) (Some month) (Some day) &&
       (JS.MakeDate year month day <=? now + ONE_DAY).

(** The letter e with an acute accent, a character outside 7-bit ASCII. *)
Definition e_acute : ascii := ascii_of_nat 233.

(** *** Facts about the built-ins *)

Arguments JS.is_digit : simpl never.
Arguments JS.digit_value : simpl never.
Arguments JS.is_white_space : simpl never.

Lemma is_digit_cases (c : ascii) :
  JS.is_digit c = true ->
  In c ["0"; "1"; "2"; "3"; "4"; "5"; "6"; "7"; "8"; "9"]%char.
Proof.
  destruct c as [[] [] [] [] [] [] [] []]; vm_compute; intros H;
    try discriminate H; tauto.
Qed.

Lemma digit_value_range (c : ascii) :
  JS.is_digit c = true -> 0 <= JS.digit_value c <= 9.
Proof.
  intros H. apply is_digit_cases in H. simpl in H.
  repeat (destruct H as [<- | H]; [vm_compute; split; discriminate |]).
  contradiction.
Qed.

Lemma parse_digits_cons (c : ascii) (s : string) (acc : Z) :
  JS.is_digit c = true ->
  JS.parse_digits (String c s) acc = JS.parse_digits s (10 * acc + JS.digit_value c).
Proof. intros H. simpl. now rewrite H. Qed.

(** On a string that starts with a digit, [parseInt] reads the digits. *)
Lemma parseInt_digit_head (c : ascii) (s : string) :
  JS.is_digit c = true ->
  JS.parseInt (String c s) = Some (JS.parse_digits (String c s) 0).
Proof.
  intros H. apply is_digit_cases in H. simpl in H.
  repeat (destruct H as [<- | H];
          [unfold JS.parseInt; cbn [JS.trim_start]; 
           match goal with |- context [JS.is_white_space ?c] =>
             change (JS.is_white_space c) with false end;
           cbv iota;
           match goal with |- context [JS.is_digit ?c] =>
             change (JS.is_digit c) with true end;
           cbv iota beta; f_equal; apply Z.mul_1_l |]).
  contradiction.
Qed.

Lemma parse_digits_shift (s : string) : forall acc,
  all_digits s = true ->
  JS.parse_digits s acc = acc * 10 ^ Z.of_nat (String.length s) + JS.parse_digits s 0.
Proof.
  induction s as [| c s IH]; intros acc H.
  - simpl. lia.
  - cbn [all_digits] in H. apply andb_prop in H as [Hc Hs].
    rewrite !parse_digits_cons by exact Hc.
    rewrite (IH (10 * acc + JS.digit_value c) Hs), (IH (10 * 0 + JS.digit_value c) Hs).
    cbn [String.length]. rewrite Nat2Z.inj_succ, Z.pow_succ_r by lia. ring.
Qed.

Lemma parse_digits_range (s : string) :
  all_digits s = true ->
  0 <= JS.parse_digits s 0 < 10 ^ Z.of_nat (String.length s).
Proof.
  induction s as [| c s IH]; intros H.
  - simpl. lia.
  - cbn [all_digits] in H. apply andb_prop in H as [Hc Hs].
    rewrite parse_digits_cons by exact Hc.
    rewrite parse_digits_shift by exact Hs.
    specialize (IH Hs). pose proof (digit_value_range c Hc) as Hd.
    cbn [String.length]. rewrite Nat2Z.inj_succ, Z.pow_succ_r by lia.
    set (p := 10 ^ Z.of_nat (String.length s)) in *. nia.
Qed.

Lemma isdigits_all_digits (s : string) : isdigits s = true -> all_digits s = true.
Proof. destruct s; [discriminate | trivial]. Qed.

Lemma parseInt_isdigits (s : string) :
  isdigits s = true -> JS.parseInt s = Some (JS.parse_digits s 0).
Proof.
  destruct s as [| c s]; [discriminate |].
  unfold isdigits. cbn [all_digits]. intros H. apply andb_prop in H as [Hc _].
  now apply parseInt_digit_head.
Qed.

(** *** Facts about the clock monad *)

Lemma filterM_length {A : Type} (p : A -> Clock bool) (l : list A) : forall t,
  (List.length (fst (filterM p l t)) <= List.length l)%nat.
Proof.
  induction l as [| x l IH]; intros t; cbn [filterM].
  - simpl. lia.
  - unfold bind, ret. destruct (p x t) as [b t1].
    specialize (IH t1). destruct (filterM p l t1) as [r t2].
    cbn [fst] in *. destruct b; cbn [List.length]; lia.
Qed.

Lemma filterM_In {A : Type} (p : A -> Clock bool) (l : list A) : forall t x,
  In x (fst (filterM p l t)) -> In x l.
Proof.
  induction l as [| y l IH]; intros t x; cbn [filterM].
  - simpl. tauto.
  - unfold bind, ret. destruct (p y t) as [b t1].
    specialize (IH t1 x). destruct (filterM p l t1) as [r t2].
    cbn [fst] in *. destruct b; cbn [In]; tauto.
Qed.

Lemma fst_bind_ret {A B : Type} (m : Clock A) (f : A -> B) (t : nat) :
  fst (bind m (fun x => ret (f x)) t) = f (fst (m t)).
Proof. unfold bind, ret. now destruct (m t). Qed.

Lemma snd_bind_ret {A B : Type} (m : Clock A) (f : A -> B) (t : nat) :
  snd (bind m (fun x => ret (f x)) t) = snd (m t).
Proof. unfold bind, ret. now destruct (m t). Qed.

Lemma eleven_digits (number : string) :
  isdigits number = true ->
  String.length number = 11%nat ->
  exists y1 y2 m1 m2 d1 d2 s1 s2 s3 k1 k2,
    number = eleven y1 y2 m1 m2 d1 d2 s1 s2 s3 k1 k2 /\
    forallb JS.is_digit [y1; y2; m1; m2; d1; d2; s1; s2; s3; k1; k2] = true.
Proof.
  intros Hdig Hlen.
  do 11 (destruct number as [| ?c number]; [discriminate Hlen |]).
  destruct number; [| discriminate Hlen].
  exists c, c0, c1, c2, c3, c4, c5, c6, c7, c8, c9.
  split; [reflexivity |].
  unfold isdigits in Hdig. cbn [all_digits] in Hdig. cbn [forallb]. exact Hdig.
Qed.

Section Facts.

Variable cleanUnicode : string -> string -> string * option exception.
Variable clock : nat -> Z.

(** What [isInPast] computes: one reading of the clock, and the
    comparison of the date's time value with the cutoff. *)
Lemma isInPast_eq (date : string_or_number) (t : nat) :
  isInPast clock date t =
  (JS.le (JS.Date_parse (template date)) (Some (clock t + ONE_DAY)), S t).
Proof. reflexivity. Qed.

(** The two century expansions of a two-digit year. *)
Lemma getFullYears_two_digits (a b : ascii) :
  JS.is_digit a = true -> JS.is_digit b = true ->
  getFullYears (Str (String a (String b EmptyString))) =
  [Some (1900 + JS.digits2 a b); Some (2000 + JS.digits2 a b)].
Proof.
  intros Ha Hb. unfold getFullYears. cbn [template append].
  rewrite !parseInt_digit_head by reflexivity.
  rewrite (parse_digits_cons "1"), (parse_digits_cons "9") by reflexivity.
  rewrite (parse_digits_cons "2"), (parse_digits_cons "0") by reflexivity.
  rewrite !(parse_digits_cons a), !(parse_digits_cons b) by assumption.
  cbn [JS.parse_digits]. unfold JS.digits2.
  change (JS.digit_value "1") with 1. change (JS.digit_value "9") with 9.
  change (JS.digit_value "2") with 2. change (JS.digit_value "0") with 0.
  f_equal; [f_equal; ring | f_equal; f_equal; ring].
Qed.

Lemma digits2_range (a b : ascii) :
  JS.is_digit a = true -> JS.is_digit b = true -> 0 <= JS.digits2 a b <= 99.
Proof.
  intros Ha Hb. unfold JS.digits2.
  pose proof (digit_value_range a Ha). pose proof (digit_value_range b Hb). lia.
Qed.

Lemma parseInt_two_digits (a b : ascii) :
  JS.is_digit a = true -> JS.is_digit b = true ->
  JS.parseInt (String a (String b EmptyString)) = Some (JS.digits2 a b).
Proof.
  intros Ha Hb. rewrite parseInt_digit_head by assumption.
  rewrite parse_digits_cons, parse_digits_cons by assumption.
  cbn [JS.parse_digits]. unfold JS.digits2. f_equal; ring.
Qed.

(** The year read back from a date that [getValidPastDates] built. *)
Lemma extractYearFromDate_century (c : Z) (a b : ascii) (rest : string) :
  c = 1900 \/ c = 2000 ->
  JS.is_digit a = true -> JS.is_digit b = true ->
  extractYearFromDate (JS.number_to_string (Some (c + JS.digits2 a b)) ++ "-" ++ rest) =
  Some (c + JS.digits2 a b).
Proof.
  intros Hc Ha Hb. apply is_digit_cases in Ha. apply is_digit_cases in Hb.
  cbn [In] in Ha, Hb.
  destruct Hc as [-> | ->];
    repeat (destruct Ha as [<- | Ha]; [| try contradiction]);
    repeat (destruct Hb as [<- | Hb]; [| try contradiction]);
    reflexivity.
Qed.

(** *** The normaliser *)

(** C8.  When the cleaning step reports an error, [compact] throws that
    error while [format] discards it and returns the value the cleaning
    utility produced; when cleaning reports no error, [compact] and [format]
    both return the cleaned value. *)
Theorem compact_throws_format_discards (input value : string) (err : option exception) :
  clean cleanUnicode input = (value, err) ->
  format cleanUnicode input = value /\
  (forall e, err = Some e -> compact cleanUnicode input = Throw e) /\
  (err = None -> compact cleanUnicode input = Return value).
Proof.
  intros H. unfold format, compact. rewrite H.
  split; [reflexivity |]. split.
  - intros e ->. reflexivity.
  - intros ->. reflexivity.
Qed.

(** C7.  [validate] has no handler around [compact]: when cleaning reports
    an error, the call of [validate] ends with that error thrown, not with a
    result object, and it has not read the clock. *)
Theorem validate_propagates_cleaning_error (input value : string) (e : exception) (t : nat) :
  clean cleanUnicode input = (value, Some e) ->
  validate cleanUnicode clock input t = (Throw e, t).
Proof.
  intros H. unfold validate, compact. rewrite H. reflexivity.
Qed.

(** *** The order of the checks *)

(** C3, as amended.  When the cleaned value is a string of digits with a
    positive integer value and its length is not 11, [validate] returns
    [{isValid: false, error: InvalidLength}]. *)
Theorem validate_invalid_length (input number : string) (t : nat) :
  clean cleanUnicode input = (number, None) ->
  isdigits number = true ->
  JS.le (JS.parseInt number) (Some 0) = false ->
  String.length number <> 11%nat ->
  validate cleanUnicode clock input t = (Return (Invalid InvalidLength), t).
Proof.
  intros Hc Hd Hp Hl. unfold validate, compact. rewrite Hc, Hd, Hp.
  apply Nat.eqb_neq in Hl. rewrite Hl. reflexivity.
Qed.

(** *** The cutoff of [isInPast] *)

(** One call of [isInPast] on a date with time value [ms]: one reading of
    the clock, and the comparison [ms <= reading + one day]. *)
Lemma isInPast_cutoff (date : string_or_number) (ms : Z) (t : nat) :
  JS.Date_parse (template date) = Some ms ->
  isInPast clock date t = (ms <=? clock t + 86400000, S t).
Proof.
  intros H. rewrite isInPast_eq, H. reflexivity.
Qed.

(** *** The checksum basis *)

(** C2.  For a base number of nine digits, the checksum basis is the base
    number read as an integer when the year is less than 2000, and the base
    number with the digit 2 in front read as an integer, which is two
    thousand million more, when the year is 2000 or later. *)
Theorem toChecksumBasis_century (year : Z) (baseNumber : string) :
  isdigits baseNumber = true ->
  String.length baseNumber = 9%nat ->
  exists v : Z,
    JS.parseInt baseNumber = Some v /\ 0 <= v < 1000000000 /\
    JS.parseInt ("2" ++ baseNumber) = Some (2000000000 + v) /\
    (year < 2000 -> toChecksumBasis (Some year) baseNumber = JS.parseInt baseNumber) /\
    (2000 <= year -> toChecksumBasis (Some year) baseNumber = JS.parseInt ("2" ++ baseNumber)).
Proof.
  intros Hd Hl. exists (JS.parse_digits baseNumber 0).
  pose proof (isdigits_all_digits _ Hd) as Ha.
  pose proof (parse_digits_range _ Ha) as Hr. rewrite Hl in Hr.
  split; [now apply parseInt_isdigits |].
  split; [exact Hr |].
  split.
  - cbn [append]. rewrite parseInt_digit_head by reflexivity.
    rewrite parse_digits_cons by reflexivity.
    rewrite parse_digits_shift by exact Ha. rewrite Hl.
    change (JS.digit_value "2") with 2. f_equal.
  - unfold toChecksumBasis, JS.lt. split; intros Hy.
    + apply Z.ltb_lt in Hy. now rewrite Hy.
    + apply Z.ltb_ge in Hy. now rewrite Hy.
Qed.

(** *** The checksum check *)

Lemma checksum_matches_iff (c b : JS.number) :
  checksum_matches c b = true <-> satisfies_checksum b c.
Proof.
  unfold checksum_matches, satisfies_checksum.
  destruct b as [bz |], c as [cz |]; cbn [JS.rem JS.add JS.strict_eq];
    change (97 =? 0) with false; cbv iota; cbn [JS.add JS.strict_eq].
  - rewrite Z.eqb_eq. split.
    + intros H. now exists bz, cz.
    + intros (bz' & cz' & [= <-] & [= <-] & H). exact H.
  - split; [discriminate | intros (? & ? & _ & [=] & _)].
  - split; [discriminate | intros (? & ? & [=] & _)].
  - split; [discriminate | intros (? & ? & [=] & _)].
Qed.

(** C1.  For a cleaned value of eleven digits that passes the structural
    stage (digits only, a positive integer value, length 11 and a valid block
    of first six digits), [validate] succeeds if and only if one of the
    candidate bases [b] that the checksum check computes has
    [b % 97 + checksum = 97]; when none has, [validate] returns
    [{isValid: false, error: InvalidChecksum}]. *)
Theorem validate_checksum_any_basis (input number : string) (t : nat) :
  clean cleanUnicode input = (number, None) ->
  isdigits number = true ->
  JS.le (JS.parseInt number) (Some 0) = false ->
  String.length number = 11%nat ->
  fst (validStructure clock number t) = true ->
  let t1 := snd (validStructure clock number t) in
  let bases := fst (getChecksumBases clock number t1) in
  let some_basis := exists b, In b bases /\ satisfies_checksum b (getChecksum number) in
  ((exists r, fst (validate cleanUnicode clock input t) = Return r /\ isValid r = true)
   <-> some_basis) /\
  (some_basis -> fst (validate cleanUnicode clock input t) = Return (Valid number true false)) /\
  (~ some_basis -> fst (validate cleanUnicode clock input t) = Return (Invalid InvalidChecksum)).
Proof.
  intros Hc Hd Hp Hl Hs t1 bases some_basis.
  assert (Hv : fst (validate cleanUnicode clock input t) =
               if existsb (checksum_matches (getChecksum number)) bases
               then Return (Valid number true false)
               else Return (Invalid InvalidChecksum)).
  { unfold validate, compact. rewrite Hc, Hd, Hp, Hl. cbn [negb orb Nat.eqb].
    unfold bind at 1. subst bases t1.
    destruct (validStructure clock number t) as [ok u]. cbn [fst snd] in *.
    subst ok. cbn [negb]. unfold bind at 1, validChecksum. unfold bind at 1.
    destruct (getChecksumBases clock number u) as [l u']. cbn [fst ret].
    now destruct (existsb _ l). }
  assert (He : existsb (checksum_matches (getChecksum number)) bases = true <-> some_basis).
  { rewrite existsb_exists. subst some_basis.
    split; intros (b & Hb & H); exists b; (split; [exact Hb |]);
      now apply checksum_matches_iff. }
  rewrite Hv. destruct (existsb _ bases).
  - assert (Hsb : some_basis) by now apply He.
    split; [| split].
    + split; [intros _; exact Hsb | intros _; now eexists].
    + reflexivity.
    + intros Hn. now elim Hn.
  - assert (Hsb : ~ some_basis) by (intros H; apply He in H; discriminate).
    split; [| split].
    + split; [| intros H; now elim Hsb].
      intros (r & [= <-] & H). discriminate H.
    + intros H. now elim Hsb.
    + reflexivity.
Qed.

(** C9.  When [validate] succeeds, the [compact] field of its result is
    [compact(input)], [isIndividual] is true and [isCompany] is false; and
    when cleaning leaves that compact value as it is, validating the compact
    value at the same clock readings gives the same result. *)
Theorem validate_success_fields (input c : string) (i co : bool) (t t' : nat) :
  validate cleanUnicode clock input t = (Return (Valid c i co), t') ->
  compact cleanUnicode input = Return c /\ i = true /\ co = false /\
  (clean cleanUnicode c = (c, None) ->
   validate cleanUnicode clock c t = (Return (Valid c true false), t')).
Proof.
  intros H.
  assert (Hc : compact cleanUnicode input = Return c /\ i = true /\ co = false).
  { revert H. unfold validate. destruct (compact cleanUnicode input) as [number | e].
    - destruct (negb (isdigits number) || JS.le (JS.parseInt number) (Some 0));
        [discriminate |].
      destruct (negb (String.length number =? 11)%nat); [discriminate |].
      unfold bind at 1. destruct (validStructure clock number t) as [[] u];
        cbn [negb]; [| discriminate].
      unfold bind at 1. destruct (validChecksum clock number u) as [[] u'];
        cbn [negb]; [| discriminate].
      unfold ret. intros [= -> <- <- _]. auto.
    - discriminate. }
  destruct Hc as (Hc & -> & ->). repeat split; try exact Hc.
  intros Hcl. rewrite <- H. unfold validate.
  rewrite Hc. unfold compact. rewrite Hcl. reflexivity.
Qed.

(** *** The fields of a number of eleven digits *)

Lemma fields_of_eleven (y1 y2 m1 m2 d1 d2 s1 s2 s3 k1 k2 : ascii) :
  let number := eleven y1 y2 m1 m2 d1 d2 s1 s2 s3 k1 k2 in
  toDateArray (getFirstSix number) =
    [String y1 (String y2 EmptyString); String m1 (String m2 EmptyString);
     String d1 (String d2 EmptyString)] /\
  getBaseNumber number =
    String y1 (String y2 (String m1 (String m2 (String d1 (String d2
      (String s1 (String s2 (String s3 EmptyString)))))))) /\
  getChecksum number = JS.parseInt (String k1 (String k2 EmptyString)).
Proof. repeat split. Qed.

Lemma isUnknownDob_eleven (y1 y2 m1 m2 d1 d2 s1 s2 s3 k1 k2 : ascii) :
  forallb JS.is_digit [y1; y2; m1; m2; d1; d2; s1; s2; s3; k1; k2] = true ->
  isUnknownDob (getFirstSix (eleven y1 y2 m1 m2 d1 d2 s1 s2 s3 k1 k2)) =
  String.eqb (String m1 (String m2 EmptyString)) "00".
Proof.
  intros H. unfold isUnknownDob.
  destruct (fields_of_eleven y1 y2 m1 m2 d1 d2 s1 s2 s3 k1 k2) as (-> & _).
  cbn [item nth]. cbn [forallb] in H.
  repeat (let D := fresh "D" in apply andb_prop in H as [D H]).
  unfold isdigits. cbn [all_digits].
  now rewrite D, D0, D3, D4, andb_true_r.
Qed.

(** The calendar check of a compact date built from a century expansion. *)
Lemma isValidDateCompact_century (c : Z) (a b m1 m2 d1 d2 : ascii) :
  c = 1900 \/ c = 2000 ->
  JS.is_digit a = true -> JS.is_digit b = true ->
  isValidDateCompactYYYYMMDD
    (JS.number_to_string (Some (c + JS.digits2 a b)) ++
     String m1 (String m2 EmptyString) ++ String d1 (String d2 EmptyString)) =
  isValidDate (Some (c + JS.digits2 a b))
    (JS.parseInt (String m1 (String m2 EmptyString)))
    (JS.parseInt (String d1 (String d2 EmptyString))).
Proof.
  intros Hc Ha Hb. apply is_digit_cases in Ha. apply is_digit_cases in Hb.
  cbn [In] in Ha, Hb.
  destruct Hc as [-> | ->];
    repeat (destruct Ha as [<- | Ha]; [| try contradiction]);
    repeat (destruct Hb as [<- | Hb]; [| try contradiction]);
    reflexivity.
Qed.

(** *** The unknown date of birth *)

(** A value of eleven digits whose month is ["00"] passes [validStructure]
    without a reading of the clock, and its bases are those of the century
    expansions that two calls of [isInPast] keep. *)
Lemma unknown_dob_structure_and_bases (number : string) (t : nat) :
  isdigits number = true ->
  String.length number = 11%nat ->
  item 1 (toDateArray (getFirstSix number)) = "00" ->
  exists yy : Z,
    JS.parseInt (item 0 (toDateArray (getFirstSix number))) = Some yy /\
    0 <= yy <= 99 /\
    validStructure clock number t = (true, t) /\
    let in19 := fst (isInPast clock (Num (Some (1900 + yy))) t) in
    let in20 := fst (isInPast clock (Num (Some (2000 + yy))) (S t)) in
    let years := ((if in19 then [Some (1900 + yy)] else []) ++
                  (if in20 then [Some (2000 + yy)] else []))%list in
    let bases := map (fun year => toChecksumBasis year (getBaseNumber number)) years in
    getChecksumBases clock number t = (bases, S (S t)) /\
    validChecksum clock number t =
      (existsb (checksum_matches (getChecksum number)) bases, S (S t)).
Proof.
  intros Hd Hl Hm.
  destruct (eleven_digits number Hd Hl)
    as (y1 & y2 & m1 & m2 & d1 & d2 & s1 & s2 & s3 & k1 & k2 & -> & Hall).
  pose proof (isUnknownDob_eleven _ _ _ _ _ _ _ _ _ _ _ Hall) as Hu.
  destruct (fields_of_eleven y1 y2 m1 m2 d1 d2 s1 s2 s3 k1 k2) as (Hf & _ & _).
  cbv zeta in Hf. rewrite Hf in Hm |- *. cbn [item nth] in Hm |- *.
  rewrite Hm in Hu. change ("00" =? "00")%string with true in Hu.
  cbn [forallb] in Hall.
  apply andb_prop in Hall as [Dy1 Hall]. apply andb_prop in Hall as [Dy2 _].
  exists (JS.digits2 y1 y2).
  split; [now apply parseInt_two_digits |].
  split; [now apply digits2_range |].
  assert (Hb : getChecksumBases clock (eleven y1 y2 m1 m2 d1 d2 s1 s2 s3 k1 k2) t =
    (map (fun year => toChecksumBasis year
            (getBaseNumber (eleven y1 y2 m1 m2 d1 d2 s1 s2 s3 k1 k2)))
       (((if fst (isInPast clock (Num (Some (1900 + JS.digits2 y1 y2))) t)
          then [Some (1900 + JS.digits2 y1 y2)] else []) ++
         (if fst (isInPast clock (Num (Some (2000 + JS.digits2 y1 y2))) (S t))
          then [Some (2000 + JS.digits2 y1 y2)] else []))%list), S (S t))).
  { unfold getChecksumBases. rewrite Hu. unfold getChecksumBasesUnknownDob.
    rewrite Hf. cbn [item nth].
    rewrite getFullYears_two_digits by assumption.
    cbn [filterM]. unfold bind, ret. rewrite !isInPast_eq. cbn [fst].
    destruct (JS.le _ _), (JS.le _ _); reflexivity. }
  split; [| split].
  - unfold validStructure, isValidFirstSix. now rewrite Hu.
  - exact Hb.
  - unfold validChecksum, bind. rewrite Hb. reflexivity.
Qed.

(** *** Impossible calendar dates *)

(** No date passes the calendar filter, so no date is compared with the
    clock. *)
Lemma getValidPastDates_none (y1 y2 m1 m2 d1 d2 : ascii) (t : nat) :
  JS.is_digit y1 = true -> JS.is_digit y2 = true ->
  isValidDate (Some (1900 + JS.digits2 y1 y2))
    (JS.parseInt (String m1 (String m2 EmptyString)))
    (JS.parseInt (String d1 (String d2 EmptyString))) = false ->
  isValidDate (Some (2000 + JS.digits2 y1 y2))
    (JS.parseInt (String m1 (String m2 EmptyString)))
    (JS.parseInt (String d1 (String d2 EmptyString))) = false ->
  getValidPastDates clock
    (String y1 (String y2 (String m1 (String m2 (String d1 (String d2 EmptyString)))))) t =
  ([], t).
Proof.
  intros D1 D2 H19 H20. unfold getValidPastDates.
  change (toDateArray (String y1 (String y2 (String m1 (String m2 (String d1
            (String d2 EmptyString)))))))
    with [String y1 (String y2 EmptyString); String m1 (String m2 EmptyString);
          String d1 (String d2 EmptyString)].
  cbn [item nth].
  rewrite getFullYears_two_digits by assumption. cbn [filter].
  rewrite !isValidDateCompact_century by auto.
  rewrite H19, H20. reflexivity.
Qed.

(** C6.  For a cleaned value of eleven digits that is not the unknown-date
    sentinel and whose month and day form no calendar date in the year
    [1900 + yy] nor in the year [2000 + yy], [validate] returns
    [{isValid: false, error: InvalidFormat}]. *)
Theorem validate_impossible_date (input number : string) (yy : Z) (t : nat) :
  clean cleanUnicode input = (number, None) ->
  isdigits number = true ->
  String.length number = 11%nat ->
  isUnknownDob (getFirstSix number) = false ->
  JS.parseInt (item 0 (toDateArray (getFirstSix number))) = Some yy ->
  (forall century, In century [1900; 2000] ->
     isValidDate (Some (century + yy))
       (JS.parseInt (item 1 (toDateArray (getFirstSix number))))
       (JS.parseInt (item 2 (toDateArray (getFirstSix number)))) = false) ->
  validate cleanUnicode clock input t = (Return (Invalid InvalidFormat), t).
Proof.
  intros Hc Hd Hl Hu Hy Hcal.
  unfold validate, compact. rewrite Hc, Hd, Hl. cbn [negb orb Nat.eqb].
  destruct (JS.le (JS.parseInt number) (Some 0)); [reflexivity |].
  destruct (eleven_digits number Hd Hl)
    as (y1 & y2 & m1 & m2 & d1 & d2 & s1 & s2 & s3 & k1 & k2 & -> & Hall).
  destruct (fields_of_eleven y1 y2 m1 m2 d1 d2 s1 s2 s3 k1 k2) as (Hf & _ & _).
  cbv zeta in Hf. rewrite Hf in Hy, Hcal. cbn [item nth] in Hy, Hcal.
  cbn [forallb] in Hall.
  apply andb_prop in Hall as [Dy1 Hall]. apply andb_prop in Hall as [Dy2 _].
  rewrite parseInt_two_digits in Hy by assumption.
  injection Hy as <-.
  unfold bind at 1, validStructure, isValidFirstSix. rewrite Hu.
  unfold isValidDob, bind.
  change (getFirstSix (eleven y1 y2 m1 m2 d1 d2 s1 s2 s3 k1 k2))
    with (String y1 (String y2 (String m1 (String m2 (String d1 (String d2 EmptyString)))))).
  rewrite getValidPastDates_none; try assumption.
  - reflexivity.
  - apply Hcal. now left.
  - apply Hcal. right. now left.
Qed.

(** *** The candidate bases *)

(** C10.  For a value of eleven digits, the checksum check tests at most
    two bases, and each one is the basis of the year [1900 + yy] or of the
    year [2000 + yy]: no other year is enumerated, for a standard date of
    birth and for an unknown one alike. *)
Theorem checksum_bases_two_centuries (number : string) (t : nat) :
  isdigits number = true ->
  String.length number = 11%nat ->
  exists yy : Z,
    JS.parseInt (item 0 (toDateArray (getFirstSix number))) = Some yy /\
    0 <= yy <= 99 /\
    getFullYears (Str (item 0 (toDateArray (getFirstSix number)))) =
      [Some (1900 + yy); Some (2000 + yy)] /\
    (List.length (fst (getChecksumBases clock number t)) <= 2)%nat /\
    forall b, In b (fst (getChecksumBases clock number t)) ->
      b = toChecksumBasis (Some (1900 + yy)) (getBaseNumber number) \/
      b = toChecksumBasis (Some (2000 + yy)) (getBaseNumber number).
Proof.
  intros Hd Hl.
  destruct (eleven_digits number Hd Hl)
    as (y1 & y2 & m1 & m2 & d1 & d2 & s1 & s2 & s3 & k1 & k2 & -> & Hall).
  destruct (fields_of_eleven y1 y2 m1 m2 d1 d2 s1 s2 s3 k1 k2) as (Hf & _ & _).
  cbv zeta in Hf. rewrite Hf. cbn [item nth].
  cbn [forallb] in Hall.
  apply andb_prop in Hall as [Dy1 Hall]. apply andb_prop in Hall as [Dy2 _].
  pose proof (getFullYears_two_digits y1 y2 Dy1 Dy2) as Hyears.
  exists (JS.digits2 y1 y2).
  split; [now apply parseInt_two_digits |].
  split; [now apply digits2_range |].
  split; [exact Hyears |].
  set (base := getBaseNumber (eleven y1 y2 m1 m2 d1 d2 s1 s2 s3 k1 k2)).
  unfold getChecksumBases. fold base.
  destruct (isUnknownDob _).
  - unfold getChecksumBasesUnknownDob. rewrite Hf. cbn [item nth].
    rewrite Hyears, fst_bind_ret. split.
    + rewrite length_map. apply (filterM_length _ [_; _]).
    + intros b Hb. apply in_map_iff in Hb as (y & <- & Hy).
      apply filterM_In in Hy. cbn [In] in Hy.
      destruct Hy as [<- | [<- | []]]; auto.
  - unfold getChecksumBasesForStandardDob. rewrite fst_bind_ret.
    unfold getValidPastDates. rewrite Hf. cbn [item nth].
    rewrite Hyears. split.
    + rewrite !length_map.
      etransitivity; [apply filterM_length |].
      rewrite length_map.
      apply (filter_length_le _ [_; _]).
    + intros b Hb. apply in_map_iff in Hb as (y & <- & Hy).
      apply in_map_iff in Hy as (date & <- & Hdate).
      apply filterM_In in Hdate.
      apply in_map_iff in Hdate as (yyyy & <- & Hyyyy).
      apply filter_In in Hyyyy as [Hyyyy _]. cbn [In] in Hyyyy.
      destruct Hyyyy as [<- | [<- | []]];
        rewrite extractYearFromDate_century by auto; auto.
Qed.

End Facts.

(** *** The theorems at concrete inputs *)

Lemma compact_throws_format_discards_witness :
  format sample_cleanUnicode ("85.03" ++ String e_acute "15") = "8503" /\
  compact sample_cleanUnicode ("85.03" ++ String e_acute "15") = Throw CleaningError /\
  format sample_cleanUnicode "85.03.15-123.69" = "85031512369" /\
  compact sample_cleanUnicode "85.03.15-123.69" = Return "85031512369".
Proof.
  destruct (compact_throws_format_discards sample_cleanUnicode
              ("85.03" ++ String e_acute "15") "8503" (Some CleaningError) eq_refl)
    as (F1 & C1 & _).
  destruct (compact_throws_format_discards sample_cleanUnicode
              "85.03.15-123.69" "85031512369" None eq_refl)
    as (F2 & _ & C2).
  split; [exact F1 |]. split; [exact (C1 _ eq_refl) |].
  split; [exact F2 | exact (C2 eq_refl)].
Defined.

Lemma validate_propagates_cleaning_error_witness :
  validate sample_cleanUnicode sample_clock ("85.03" ++ String e_acute "15") 0%nat =
  (Throw CleaningError, 0%nat).
Proof.
  exact (validate_propagates_cleaning_error sample_cleanUnicode sample_clock
           ("85.03" ++ String e_acute "15") "8503" CleaningError 0%nat eq_refl).
Defined.

(** C3, the claim as stated fails: the cleaned value ["12A"] has length 3,
    and [validate] reports [InvalidFormat], not [InvalidLength]. *)
Lemma validate_short_letters_invalid_format :
  clean sample_cleanUnicode "12A" = ("12A", None) /\
  String.length "12A" <> 11%nat /\
  validate sample_cleanUnicode sample_clock "12A" 0%nat = (Return (Invalid InvalidFormat), 0%nat) /\
  fst (validate sample_cleanUnicode sample_clock "12A" 0%nat) <> Return (Invalid InvalidLength).
Proof.
  repeat split; try reflexivity; discriminate.
Qed.

Lemma validate_invalid_length_witness :
  validate sample_cleanUnicode sample_clock "12345-67890" 0%nat =
  (Return (Invalid InvalidLength), 0%nat).
Proof.
  apply (validate_invalid_length sample_cleanUnicode sample_clock
           "12345-67890" "1234567890" 0%nat).
  - reflexivity.
  - reflexivity.
  - reflexivity.
  - simpl. lia.
Defined.

(** C4, the claim as stated fails: when the clock reads one day before
    1985-03-15T00:00:00Z, the date 1985-03-15 is exactly the clock reading plus
    one day, and it is accepted: [isInPast] answers true and the date check of
    the structure keeps it.  The same holds for the candidate year 1985 of
    an unknown date of birth one day before 1985-01-01T00:00:00Z. *)
Lemma isInPast_accepts_date_at_cutoff :
  JS.Date_parse "1985-03-15" = Some (eve_clock 0%nat + ONE_DAY) /\
  isInPast eve_clock (Str "1985-03-15") 0%nat = (true, 1%nat) /\
  getValidPastDates eve_clock "850315" 0%nat = (["1985-03-15"], 2%nat) /\
  validStructure eve_clock "85031512369" 0%nat = (true, 2%nat) /\
  JS.Date_parse (template (Num (Some 1985))) = Some (new_year_eve_clock 0%nat + ONE_DAY) /\
  isInPast new_year_eve_clock (Num (Some 1985)) 0%nat = (true, 1%nat) /\
  fst (getChecksumBases new_year_eve_clock "85001512345" 0%nat) = [Some 850015123].
Proof.
  repeat split; vm_compute; reflexivity.
Qed.

Lemma toChecksumBasis_century_witness :
  toChecksumBasis (Some 1985) "850315123" = Some 850315123 /\
  toChecksumBasis (Some 2085) "850315123" = Some 2850315123.
Proof.
  destruct (toChecksumBasis_century 1985 "850315123" eq_refl eq_refl)
    as (v & Hv & _ & _ & H19 & _).
  destruct (toChecksumBasis_century 2085 "850315123" eq_refl eq_refl)
    as (w & _ & _ & _ & _ & H20).
  split.
  - rewrite H19 by lia. reflexivity.
  - rewrite H20 by lia. reflexivity.
Defined.

(** C5, the claim as stated fails: the value of eleven zeros is all digits,
    has eleven characters and the month ["00"], but its integer value is not
    positive: [validate] reports [InvalidFormat] at its first test and never
    checks the checksum against any basis (it has not read the clock, which
    the checksum check of this value does twice). *)
Lemma unknown_dob_zeros_invalid_format :
  clean sample_cleanUnicode "00000000000" = ("00000000000", None) /\
  isdigits "00000000000" = true /\
  String.length "00000000000" = 11%nat /\
  item 1 (toDateArray (getFirstSix "00000000000")) = "00" /\
  JS.le (JS.parseInt "00000000000") (Some 0) = true /\
  validate sample_cleanUnicode sample_clock "00000000000" 0%nat =
    (Return (Invalid InvalidFormat), 0%nat) /\
  snd (validChecksum sample_clock "00000000000" 0%nat) = 2%nat.
Proof.
  repeat split; reflexivity.
Qed.

Lemma validate_checksum_any_basis_witness :
  fst (validate sample_cleanUnicode sample_clock "85.03.15-123.69" 0%nat) =
  Return (Valid "85031512369" true false) /\
  fst (validate sample_cleanUnicode sample_clock "85.03.15-123.45" 0%nat) =
  Return (Invalid InvalidChecksum).
Proof.
  split.
  - destruct (validate_checksum_any_basis sample_cleanUnicode sample_clock
                "85.03.15-123.69" "85031512369" 0%nat
                eq_refl eq_refl eq_refl eq_refl eq_refl) as (_ & H & _).
    apply H. exists (Some 850315123). split.
    + vm_compute. left. reflexivity.
    + exists 850315123, 69. repeat split.
  - destruct (validate_checksum_any_basis sample_cleanUnicode sample_clock
                "85.03.15-123.45" "85031512345" 0%nat
                eq_refl eq_refl eq_refl eq_refl eq_refl) as (_ & _ & H).
    apply H. intros (b & Hb & bz & cz & -> & Hc & Hr).
    vm_compute in Hb, Hc. injection Hc as <-.
    destruct Hb as [[= <-] | []]. vm_compute in Hr. discriminate Hr.
Defined.

Lemma validate_success_fields_witness :
  compact sample_cleanUnicode "85.03.15-123.69" = Return "85031512369" /\
  validate sample_cleanUnicode sample_clock "85031512369" 0%nat =
  (Return (Valid "85031512369" true false), 4%nat).
Proof.
  assert (H : validate sample_cleanUnicode sample_clock "85.03.15-123.69" 0%nat =
              (Return (Valid "85031512369" true false), 4%nat))
    by (vm_compute; reflexivity).
  destruct (validate_success_fields sample_cleanUnicode sample_clock
              "85.03.15-123.69" "85031512369" true false 0%nat 4%nat H) as (Hc & _ & _ & Hv).
  split; [exact Hc | exact (Hv eq_refl)].
Defined.

Lemma validate_impossible_date_witness :
  validate sample_cleanUnicode sample_clock "850230-12345" 0%nat =
  (Return (Invalid InvalidFormat), 0%nat).
Proof.
  apply (validate_impossible_date sample_cleanUnicode sample_clock
           "850230-12345" "85023012345" 85 0%nat); try reflexivity.
  intros century [<- | [<- | []]]; reflexivity.
Defined.

Lemma checksum_bases_two_centuries_witness :
  (List.length (fst (getChecksumBases sample_clock "85031512369" 0%nat)) <= 2)%nat.
Proof.
  destruct (checksum_bases_two_centuries sample_clock "85031512369" 0%nat eq_refl eq_refl)
    as (yy & _ & _ & _ & H & _).
  exact H.
Defined.

(** ** Further properties of the validator *)

Section Outcomes.

Variable cleanUnicode : string -> string -> string * option exception.
Variable clock : nat -> Z.

(** *** Readings of the clock *)

(** A filter by [isInPast] reads the clock once per element. *)
Lemma filterM_isInPast_snd {A : Type} (f : A -> string_or_number) (l : list A) :
  forall t,
  snd (filterM (fun x => isInPast clock (f x)) l t) = (t + List.length l)%nat.
Proof.
  induction l as [| x l IH]; intros t; cbn [filterM].
  - unfold ret. cbn [snd List.length]. lia.
  - unfold bind, ret. rewrite isInPast_eq. specialize (IH (S t)).
    destruct (filterM _ l (S t)) as [r u]. cbn [snd List.length] in *. lia.
Qed.

Lemma getValidPastDates_reads (dob : string) (t : nat) :
  (t <= snd (getValidPastDates clock dob t) <= t + 2)%nat.
Proof.
  unfold getValidPastDates. rewrite (filterM_isInPast_snd Str).
  rewrite length_map.
  unfold getFullYears.
  match goal with
  | |- context [List.length (filter ?f ?l)] => pose proof (filter_length_le f l) as H
  end.
  cbn [List.length] in H. lia.
Qed.

Lemma validStructure_reads (number : string) (t : nat) :
  (t <= snd (validStructure clock number t) <= t + 2)%nat.
Proof.
  unfold validStructure, isValidFirstSix.
  destruct (isUnknownDob _).
  - unfold ret. cbn [snd]. lia.
  - unfold isValidDob. rewrite snd_bind_ret. apply getValidPastDates_reads.
Qed.

Lemma getChecksumBases_reads (number : string) (t : nat) :
  (t <= snd (getChecksumBases clock number t) <= t + 2)%nat.
Proof.
  unfold getChecksumBases. destruct (isUnknownDob _).
  - unfold getChecksumBasesUnknownDob. rewrite snd_bind_ret.
    rewrite (filterM_isInPast_snd Num). cbn [getFullYears List.length]. lia.
  - unfold getChecksumBasesForStandardDob. rewrite snd_bind_ret.
    apply getValidPastDates_reads.
Qed.

Lemma validChecksum_reads (number : string) (t : nat) :
  (t <= snd (validChecksum clock number t) <= t + 2)%nat.
Proof.
  unfold validChecksum. rewrite snd_bind_ret. apply getChecksumBases_reads.
Qed.

(** What a successful call went through. *)
Lemma validate_success_inv (input c : string) (i co : bool) (t t' : nat) :
  validate cleanUnicode clock input t = (Return (Valid c i co), t') ->
  clean cleanUnicode input = (c, None) /\
  isdigits c = true /\
  JS.le (JS.parseInt c) (Some 0) = false /\
  String.length c = 11%nat /\
  fst (validStructure clock c t) = true /\
  fst (validChecksum clock c (snd (validStructure clock c t))) = true /\
  t' = snd (validChecksum clock c (snd (validStructure clock c t))).
Proof.
  unfold validate, compact.
  destruct (clean cleanUnicode input) as [number [e |]]; [discriminate |].
  destruct (isdigits number) eqn:Ed; cbn [negb orb]; [| discriminate].
  destruct (JS.le (JS.parseInt number) (Some 0)) eqn:Ep; [discriminate |].
  destruct (String.length number =? 11)%nat eqn:El; cbn [negb]; [| discriminate].
  apply Nat.eqb_eq in El.
  unfold bind at 1. destruct (validStructure clock number t) as [[] u] eqn:Es;
    cbn [negb]; [| discriminate].
  unfold bind at 1. destruct (validChecksum clock number u) as [[] u'] eqn:Ek;
    cbn [negb]; [| discriminate].
  unfold ret. intros [= <- _ _ <-].
  rewrite Es. cbn [fst snd]. rewrite Ek. cbn [fst snd]. repeat split; auto.
Qed.

(** X1.  [validate] throws exactly when the cleaning step reports an error,
    and then it throws that error without a reading of the clock; otherwise it
    returns a result, which is the success result for the cleaned value or a
    failure with [InvalidFormat], [InvalidLength] or [InvalidChecksum]. *)
Theorem validate_outcomes (input : string) (t : nat) :
  (forall e t', validate cleanUnicode clock input t = (Throw e, t') <->
                snd (clean cleanUnicode input) = Some e /\ t' = t) /\
  (forall r t', validate cleanUnicode clock input t = (Return r, t') ->
                snd (clean cleanUnicode input) = None /\
                (r = Valid (fst (clean cleanUnicode input)) true false \/
                 r = Invalid InvalidFormat \/ r = Invalid InvalidLength \/
                 r = Invalid InvalidChecksum)).
Proof.
  unfold validate, compact.
  destruct (clean cleanUnicode input) as [number [e0 |]]; cbn [fst snd].
  - split.
    + intros e t'. unfold ret. split.
      * intros [= <- <-]. auto.
      * intros [[= <-] ->]. reflexivity.
    + intros r t'. discriminate.
  - assert (H : forall r t',
        (if negb (isdigits number) || JS.le (JS.parseInt number) (Some 0)
         then ret (Return (Invalid InvalidFormat))
         else if negb (String.length number =? 11)%nat
              then ret (Return (Invalid InvalidLength))
              else bind (validStructure clock number) (fun structure =>
                   if negb structure then ret (Return (Invalid InvalidFormat))
                   else bind (validChecksum clock number) (fun checksum =>
                        if negb checksum then ret (Return (Invalid InvalidChecksum))
                        else ret (Return (Valid number true false))))) t = (r, t') ->
        exists v, r = Return v /\
          (v = Valid number true false \/ v = Invalid InvalidFormat \/
           v = Invalid InvalidLength \/ v = Invalid InvalidChecksum)).
    { intros r t'.
      destruct (negb (isdigits number) || JS.le (JS.parseInt number) (Some 0)).
      { unfold ret. intros [= <- _]. eauto 6. }
      destruct (negb (String.length number =? 11)%nat).
      { unfold ret. intros [= <- _]. eauto 6. }
      unfold bind at 1. destruct (validStructure clock number t) as [[] u]; cbn [negb].
      - unfold bind at 1. destruct (validChecksum clock number u) as [[] u']; cbn [negb];
          unfold ret; intros [= <- _]; eauto 6.
      - unfold ret. intros [= <- _]. eauto 6. }
    split.
    + intros e t'. split.
      * intros Hv. apply H in Hv as (v & [=] & _).
      * intros [[=] _].
    + intros r t' Hv. split; [reflexivity |].
      apply H in Hv as (v & [= <-] & Hv). exact Hv.
Qed.

(** X2.  [validate] reads the clock at most four times in one call. *)
Theorem validate_clock_reads (input : string) (t : nat) :
  (t <= snd (validate cleanUnicode clock input t) <= t + 4)%nat.
Proof.
  unfold validate. destruct (compact cleanUnicode input) as [number | e].
  - destruct (negb (isdigits number) || JS.le (JS.parseInt number) (Some 0)).
    { unfold ret. cbn [snd]. lia. }
    destruct (negb (String.length number =? 11)%nat).
    { unfold ret. cbn [snd]. lia. }
    unfold bind. pose proof (validStructure_reads number t) as Hs.
    destruct (validStructure clock number t) as [[] u]; cbn [negb snd] in *.
    + pose proof (validChecksum_reads number u) as Hc.
      destruct (validChecksum clock number u) as [[] u']; cbn [negb snd] in *;
        unfold ret; cbn [snd]; lia.
    + unfold ret. cbn [snd]. lia.
  - unfold ret. cbn [snd]. lia.
Qed.

(** X3.  When cleaning reports no error, [validate] answers [InvalidLength]
    exactly when the cleaned value is a string of digits with a positive
    value whose length is not 11; a value that is not all digits or has the
    value zero is never reported as a wrong length. *)
Theorem invalid_length_exactly (input number : string) (t : nat) :
  clean cleanUnicode input = (number, None) ->
  (fst (validate cleanUnicode clock input t) = Return (Invalid InvalidLength) <->
   isdigits number = true /\
   JS.le (JS.parseInt number) (Some 0) = false /\
   String.length number <> 11%nat).
Proof.
  intros Hc. unfold validate, compact. rewrite Hc.
  destruct (isdigits number); cbn [negb orb].
  - destruct (JS.le (JS.parseInt number) (Some 0)).
    + unfold ret. cbn [fst]. split; [discriminate | intros (_ & [=] & _)].
    + destruct (String.length number =? 11)%nat eqn:El; cbn [negb].
      * apply Nat.eqb_eq in El. unfold bind at 1.
        destruct (validStructure clock number t) as [[] u]; cbn [negb].
        -- unfold bind at 1. destruct (validChecksum clock number u) as [[] u'];
             cbn [negb]; unfold ret; cbn [fst];
             (split; [discriminate | intros (_ & _ & Hn); now elim Hn]).
        -- unfold ret. cbn [fst].
           split; [discriminate | intros (_ & _ & Hn); now elim Hn].
      * apply Nat.eqb_neq in El. unfold ret. cbn [fst]. split; auto.
  - unfold ret. cbn [fst]. split; [discriminate | intros ([=] & _)].
Qed.

(** *** What a valid number looks like *)

(** X4.  A number that [validate] accepts is in canonical form: eleven
    digits with a positive value, whose month is ["00"] or whose month and day
    form a calendar date in the year [1900 + yy] or in the year [2000 + yy]. *)
Theorem validate_success_canonical (input c : string) (i co : bool) (t t' : nat) :
  validate cleanUnicode clock input t = (Return (Valid c i co), t') ->
  isdigits c = true /\
  String.length c = 11%nat /\
  (exists v, JS.parseInt c = Some v /\ 0 < v) /\
  let a := toDateArray (getFirstSix c) in
  (item 1 a = "00" \/
   exists yy century,
     JS.parseInt (item 0 a) = Some yy /\
     (century = 1900 \/ century = 2000) /\
     isValidDate (Some (century + yy))
       (JS.parseInt (item 1 a)) (JS.parseInt (item 2 a)) = true).
Proof.
  intros H. apply validate_success_inv in H as (_ & Hd & Hp & Hl & Hs & _ & _).
  split; [exact Hd |]. split; [exact Hl |]. split.
  { rewrite (parseInt_isdigits c Hd) in Hp |- *. eexists. split; [reflexivity |].
    cbn [JS.le] in Hp. now apply Z.leb_gt in Hp. }
  destruct (eleven_digits c Hd Hl)
    as (y1 & y2 & m1 & m2 & d1 & d2 & s1 & s2 & s3 & k1 & k2 & -> & Hall).
  pose proof (isUnknownDob_eleven _ _ _ _ _ _ _ _ _ _ _ Hall) as Hu.
  destruct (fields_of_eleven y1 y2 m1 m2 d1 d2 s1 s2 s3 k1 k2) as (Hf & _ & _).
  cbv zeta in Hf |- *. rewrite Hf. cbn [item nth].
  cbn [forallb] in Hall.
  apply andb_prop in Hall as [Dy1 Hall]. apply andb_prop in Hall as [Dy2 _].
  unfold validStructure, isValidFirstSix in Hs. rewrite Hu in Hs.
  destruct (String.eqb (String m1 (String m2 EmptyString)) "00") eqn:Em.
  - left. now apply String.eqb_eq.
  - right. unfold isValidDob in Hs. rewrite fst_bind_ret in Hs.
    change (getFirstSix (eleven y1 y2 m1 m2 d1 d2 s1 s2 s3 k1 k2))
      with (String y1 (String y2 (String m1 (String m2 (String d1
              (String d2 EmptyString)))))) in Hs.
    unfold getValidPastDates in Hs.
    change (toDateArray (String y1 (String y2 (String m1 (String m2 (String d1
              (String d2 EmptyString)))))))
      with [String y1 (String y2 EmptyString); String m1 (String m2 EmptyString);
            String d1 (String d2 EmptyString)] in Hs.
    cbn [item nth] in Hs. rewrite getFullYears_two_digits in Hs by assumption.
    match type of Hs with
    | negb (List.length (fst ?r) =? 0)%nat = true => destruct (fst r) as [| date l] eqn:Er
    end; [discriminate Hs |].
    assert (Hin : In date (date :: l)) by now left.
    rewrite <- Er in Hin. apply filterM_In in Hin.
    apply in_map_iff in Hin as (yyyy & _ & Hy).
    apply filter_In in Hy as [Hy Hvalid]. cbn [In] in Hy.
    exists (JS.digits2 y1 y2).
    destruct Hy as [<- | [<- | []]];
      rewrite isValidDateCompact_century in Hvalid by auto.
    + exists 1900. split; [now apply parseInt_two_digits | auto].
    + exists 2000. split; [now apply parseInt_two_digits | auto].
Qed.

(** Every candidate basis is the basis of some year. *)
Lemma getChecksumBases_basis (number : string) (t : nat) (b : JS.number) :
  In b (fst (getChecksumBases clock number t)) ->
  exists year, b = toChecksumBasis year (getBaseNumber number).
Proof.
  unfold getChecksumBases. destruct (isUnknownDob _).
  - unfold getChecksumBasesUnknownDob. rewrite fst_bind_ret.
    intros Hb. apply in_map_iff in Hb as (y & <- & _). now exists y.
  - unfold getChecksumBasesForStandardDob. rewrite fst_bind_ret.
    intros Hb. apply in_map_iff in Hb as (y & <- & _). now exists y.
Qed.

Lemma Some_inj {A : Type} (x y : A) : Some x = Some y -> x = y.
Proof. now intros [= ->]. Qed.

Lemma parseInt_prefix_two (baseNumber : string) :
  isdigits baseNumber = true ->
  String.length baseNumber = 9%nat ->
  JS.parseInt ("2" ++ baseNumber) = Some (2000000000 + JS.parse_digits baseNumber 0).
Proof.
  intros Hd Hl. pose proof (isdigits_all_digits _ Hd) as Ha.
  cbn [append]. rewrite parseInt_digit_head by reflexivity.
  rewrite parse_digits_cons by reflexivity.
  rewrite parse_digits_shift by exact Ha. rewrite Hl.
  change (JS.digit_value "2") with 2. f_equal.
Qed.

(** The relation on a basis that is not negative, as a congruence. *)
Lemma satisfies_checksum_mod (bz cz : Z) :
  0 <= bz ->
  Z.rem bz 97 + cz = 97 ->
  1 <= cz <= 97 /\ (bz + cz) mod 97 = 0.
Proof.
  intros Hb H. rewrite Z.rem_mod_nonneg in H by lia.
  pose proof (Z.mod_pos_bound bz 97 ltac:(lia)) as Hr.
  split; [lia |].
  pose proof (Z.div_mod bz 97 ltac:(lia)) as Hq.
  replace (bz + cz) with ((bz / 97 + 1) * 97) by lia.
  apply Z.mod_mul. lia.
Qed.

(** X5.  In a number that [validate] accepts, the checksum [c] read from
    the last two digits lies between 1 and 97, and with [n] the integer read
    from the first nine digits, [n + c] or [2000000000 + n + c] is a multiple
    of 97. *)
Theorem validate_success_checksum (input c : string) (i co : bool) (t t' : nat) :
  validate cleanUnicode clock input t = (Return (Valid c i co), t') ->
  exists n cz : Z,
    JS.parseInt (getBaseNumber c) = Some n /\
    0 <= n < 1000000000 /\
    getChecksum c = Some cz /\
    1 <= cz <= 97 /\
    ((n + cz) mod 97 = 0 \/ (2000000000 + n + cz) mod 97 = 0).
Proof.
  intros H. apply validate_success_inv in H as (_ & Hd & _ & Hl & _ & Hk & _).
  set (u := snd (validStructure clock c t)) in Hk.
  unfold validChecksum in Hk. rewrite fst_bind_ret in Hk.
  apply existsb_exists in Hk as (b & Hb & Hm).
  apply checksum_matches_iff in Hm as (bz & cz & -> & Hcz & Hrel).
  apply getChecksumBases_basis in Hb as (year & Hb).
  destruct (eleven_digits c Hd Hl)
    as (y1 & y2 & m1 & m2 & d1 & d2 & s1 & s2 & s3 & k1 & k2 & -> & Hall).
  destruct (fields_of_eleven y1 y2 m1 m2 d1 d2 s1 s2 s3 k1 k2) as (_ & Hbase & _).
  cbv zeta in Hbase. rewrite Hbase in Hb |- *.
  set (base := String y1 (String y2 (String m1 (String m2 (String d1 (String d2
                 (String s1 (String s2 (String s3 EmptyString))))))))) in *.
  assert (Hbd : isdigits base = true).
  { cbn [forallb] in Hall. unfold base, isdigits. cbn [all_digits].
    repeat (let D := fresh "D" in apply andb_prop in Hall as [D Hall]).
    now rewrite D, D0, D1, D2, D3, D4, D5, D6, D7. }
  assert (Hbl : String.length base = 9%nat) by reflexivity.
  pose proof (parse_digits_range base (isdigits_all_digits _ Hbd)) as Hr.
  rewrite Hbl in Hr. change (10 ^ Z.of_nat 9) with 1000000000 in Hr.
  exists (JS.parse_digits base 0), cz.
  split; [now apply parseInt_isdigits |].
  split; [exact Hr |].
  split; [exact Hcz |].
  unfold toChecksumBasis in Hb. destruct (JS.lt year (Some 2000)).
  - rewrite parseInt_isdigits in Hb by exact Hbd.
    apply Some_inj in Hb. subst bz.
    destruct (satisfies_checksum_mod _ cz (proj1 Hr) Hrel) as [Hc Hm].
    split; [exact Hc | now left].
  - rewrite parseInt_prefix_two in Hb by assumption.
    apply Some_inj in Hb. subst bz.
    assert (Hnn : 0 <= 2000000000 + JS.parse_digits base 0) by lia.
    destruct (satisfies_checksum_mod _ cz Hnn Hrel) as [Hc Hm].
    split; [exact Hc |]. right.
    now rewrite <- Z.add_assoc in Hm |- *.
Qed.

(** *** What the modulo-97 test rejects *)

Lemma coprime_97_pow10 (i : nat) : Z.gcd 97 (10 ^ Z.of_nat i) = 1.
Proof.
  apply Z.coprime_pow_r; [lia | reflexivity].
Qed.

(** X6.  For one candidate basis, when [b] passes the test
    [b % 97 + checksum === 97], no basis [b + k * 10^i] with [0 < |k| < 97]
    passes it with the same checksum: the test rejects one wrong digit
    ([|k| <= 9]) and two adjacent digits that were swapped ([|k| <= 81]). *)
Theorem checksum_rejects_shifted_basis (b checksum k : Z) (i : nat) :
  0 <= b ->
  0 <= b + k * 10 ^ Z.of_nat i ->
  k <> 0 ->
  -97 < k < 97 ->
  checksum_matches (Some checksum) (Some b) = true ->
  checksum_matches (Some checksum) (Some (b + k * 10 ^ Z.of_nat i)) = false.
Proof.
  intros Hb Hb' Hk0 Hk H.
  destruct (checksum_matches (Some checksum) (Some (b + k * 10 ^ Z.of_nat i))) eqn:H';
    [exfalso | reflexivity].
  apply checksum_matches_iff in H as (bz & cz & [= <-] & [= <-] & H).
  apply checksum_matches_iff in H' as (bz' & cz' & [= <-] & [= <-] & H').
  rewrite Z.rem_mod_nonneg in H, H' by lia.
  assert (Hdiv : (97 | k * 10 ^ Z.of_nat i)).
  { apply Z.mod_divide; [lia |].
    replace (k * 10 ^ Z.of_nat i) with ((b + k * 10 ^ Z.of_nat i) - b) by ring.
    rewrite Zminus_mod. replace ((b + k * 10 ^ Z.of_nat i) mod 97) with (b mod 97) by lia.
    rewrite Z.sub_diag. reflexivity. }
  rewrite Z.mul_comm in Hdiv.
  apply Z.gauss in Hdiv; [| apply coprime_97_pow10].
  destruct Hdiv as [q Hq]. lia.
Qed.

End Outcomes.

(** *** The passing of time *)

Section Later.

Variable cleanUnicode : string -> string -> string * option exception.
Variables clock later : nat -> Z.

(** Every reading of the second clock is at least the same reading of the
    first. *)
Hypothesis later_ge : forall n, clock n <= later n.

Lemma isInPast_later (date : string_or_number) (t : nat) :
  fst (isInPast clock date t) = true -> fst (isInPast later date t) = true.
Proof.
  rewrite !isInPast_eq. cbn [fst]. unfold JS.le.
  destruct (JS.Date_parse (template date)) as [d |]; [| discriminate].
  rewrite !Z.leb_le. specialize (later_ge t). lia.
Qed.

Lemma filterM_isInPast_later {A : Type} (f : A -> string_or_number) (l : list A) :
  forall t x,
  In x (fst (filterM (fun y => isInPast clock (f y)) l t)) ->
  In x (fst (filterM (fun y => isInPast later (f y)) l t)).
Proof.
  induction l as [| y l IH]; intros t x; cbn [filterM].
  - trivial.
  - unfold bind, ret. pose proof (isInPast_later (f y) t) as Hy.
    rewrite !isInPast_eq in *. cbn [fst] in Hy. specialize (IH (S t) x).
    destruct (filterM (fun y => isInPast clock (f y)) l (S t)) as [r u].
    destruct (filterM (fun y => isInPast later (f y)) l (S t)) as [r' u'].
    cbn [fst] in *.
    destruct (JS.le _ (Some (clock t + ONE_DAY))).
    + rewrite Hy by reflexivity. cbn [In]. tauto.
    + destruct (JS.le _ (Some (later t + ONE_DAY))); cbn [In]; tauto.
Qed.

Lemma getValidPastDates_later (dob : string) (t : nat) :
  (forall d, In d (fst (getValidPastDates clock dob t)) ->
             In d (fst (getValidPastDates later dob t))) /\
  snd (getValidPastDates clock dob t) = snd (getValidPastDates later dob t).
Proof.
  unfold getValidPastDates. split.
  - intros d. apply (filterM_isInPast_later Str).
  - now rewrite (filterM_isInPast_snd clock Str), (filterM_isInPast_snd later Str).
Qed.

Lemma validStructure_later (number : string) (t : nat) :
  (fst (validStructure clock number t) = true ->
   fst (validStructure later number t) = true) /\
  snd (validStructure clock number t) = snd (validStructure later number t).
Proof.
  unfold validStructure, isValidFirstSix.
  destruct (isUnknownDob _); [split; trivial |].
  unfold isValidDob. rewrite !fst_bind_ret, !snd_bind_ret.
  destruct (getValidPastDates_later (getFirstSix number) t) as [Hin Hsnd].
  split; [| exact Hsnd].
  destruct (fst (getValidPastDates clock (getFirstSix number) t)) as [| d l];
    [discriminate |].
  intros _. specialize (Hin d (or_introl eq_refl)).
  destruct (fst (getValidPastDates later (getFirstSix number) t)); [destruct Hin | reflexivity].
Qed.

Lemma getChecksumBases_later (number : string) (t : nat) :
  (forall b, In b (fst (getChecksumBases clock number t)) ->
             In b (fst (getChecksumBases later number t))) /\
  snd (getChecksumBases clock number t) = snd (getChecksumBases later number t).
Proof.
  unfold getChecksumBases. destruct (isUnknownDob _).
  - unfold getChecksumBasesUnknownDob. rewrite !fst_bind_ret, !snd_bind_ret. split.
    + intros b Hb. apply in_map_iff in Hb as (y & <- & Hy).
      apply in_map_iff. exists y. split; [reflexivity |].
      now apply (filterM_isInPast_later Num).
    + now rewrite (filterM_isInPast_snd clock Num), (filterM_isInPast_snd later Num).
  - unfold getChecksumBasesForStandardDob. rewrite !fst_bind_ret, !snd_bind_ret.
    destruct (getValidPastDates_later (getFirstSix number) t) as [Hin Hsnd].
    split; [| exact Hsnd].
    intros b Hb. apply in_map_iff in Hb as (y & <- & Hy).
    apply in_map_iff in Hy as (d & <- & Hd).
    apply in_map_iff. eexists. split; [reflexivity |].
    apply in_map_iff. exists d. split; [reflexivity |]. now apply Hin.
Qed.

Lemma validChecksum_later (number : string) (t : nat) :
  (fst (validChecksum clock number t) = true ->
   fst (validChecksum later number t) = true) /\
  snd (validChecksum clock number t) = snd (validChecksum later number t).
Proof.
  unfold validChecksum. rewrite !fst_bind_ret, !snd_bind_ret.
  destruct (getChecksumBases_later number t) as [Hin Hsnd].
  split; [| exact Hsnd].
  rewrite !existsb_exists. intros (b & Hb & Hm). exists b. auto.
Qed.

(** X7.  A number that is valid stays valid: when [validate] succeeds with
    one clock, it succeeds with the same result, after as many readings, with
    every clock whose readings are the same or later. *)
Theorem validate_stays_valid (input c : string) (i co : bool) (t t' : nat) :
  validate cleanUnicode clock input t = (Return (Valid c i co), t') ->
  validate cleanUnicode later input t = (Return (Valid c i co), t').
Proof.
  intros H.
  pose proof H as H0. apply validate_success_inv in H0
    as (Hc & Hd & Hp & Hl & Hs & Hk & ->).
  assert (Hi : i = true /\ co = false).
  { revert H. unfold validate, compact. rewrite Hc, Hd, Hp, Hl.
    cbn [negb orb Nat.eqb]. unfold bind.
    destruct (validStructure clock c t) as [[] u]; cbn [negb]; [| discriminate].
    destruct (validChecksum clock c u) as [[] u']; cbn [negb]; [| discriminate].
    unfold ret. intros [= <- <-]. auto. }
  destruct Hi as [-> ->].
  destruct (validStructure_later c t) as [Hs' Hsu]. specialize (Hs' Hs).
  rewrite Hsu in Hk |- *.
  destruct (validChecksum_later c (snd (validStructure later c t))) as [Hk' Hku].
  specialize (Hk' Hk). rewrite Hku.
  unfold validate, compact. rewrite Hc, Hd, Hp, Hl. cbn [negb orb Nat.eqb].
  unfold bind.
  destruct (validStructure later c t) as [s u]. cbn [fst snd] in *. subst s.
  cbn [negb].
  destruct (validChecksum later c u) as [k u']. cbn [fst snd] in *. subst k.
  reflexivity.
Qed.

End Later.

(** *** A clock that stands still *)

Lemma year_string (a b : ascii) :
  JS.is_digit a = true -> JS.is_digit b = true ->
  JS.number_to_string (Some (1900 + JS.digits2 a b)) =
    String "1" (String "9" (String a (String b EmptyString))) /\
  JS.number_to_string (Some (2000 + JS.digits2 a b)) =
    String "2" (String "0" (String a (String b EmptyString))).
Proof.
  intros Ha Hb. apply is_digit_cases in Ha. apply is_digit_cases in Hb.
  cbn [In] in Ha, Hb.
  repeat (destruct Ha as [<- | Ha]; [| try contradiction]);
    repeat (destruct Hb as [<- | Hb]; [| try contradiction]);
    split; reflexivity.
Qed.

Lemma digits4_century (a b : ascii) :
  JS.digits4 "1" "9" a b = 1900 + JS.digits2 a b /\
  JS.digits4 "2" "0" a b = 2000 + JS.digits2 a b.
Proof.
  unfold JS.digits4, JS.digits2.
  change (JS.digit_value "1") with 1. change (JS.digit_value "9") with 9.
  change (JS.digit_value "2") with 2. change (JS.digit_value "0") with 0.
  split; ring.
Qed.

Lemma Date_parse_year (y1 y2 y3 y4 : ascii) :
  JS.is_digit y1 = true -> JS.is_digit y2 = true ->
  JS.is_digit y3 = true -> JS.is_digit y4 = true ->
  JS.Date_parse (String y1 (String y2 (String y3 (String y4 EmptyString)))) =
  Some (JS.MakeDate (JS.digits4 y1 y2 y3 y4) 1 1).
Proof.
  intros H1 H2 H3 H4. unfold JS.Date_parse. now rewrite H1, H2, H3, H4.
Qed.

Lemma Date_parse_day (y1 y2 y3 y4 m1 m2 d1 d2 : ascii) :
  JS.is_digit y1 = true -> JS.is_digit y2 = true ->
  JS.is_digit y3 = true -> JS.is_digit y4 = true ->
  JS.is_digit m1 = true -> JS.is_digit m2 = true ->
  JS.is_digit d1 = true -> JS.is_digit d2 = true ->
  JS.Date_parse
    (String y1 (String y2 (String y3 (String y4 (String "-" (String m1 (String m2
       (String "-" (String d1 (String d2 EmptyString)))))))))) =
  if isValidDate (Some (JS.digits4 y1 y2 y3 y4))
       (Some (JS.digits2 m1 m2)) (Some (JS.digits2 d1 d2))
  then Some (JS.MakeDate (JS.digits4 y1 y2 y3 y4) (JS.digits2 m1 m2) (JS.digits2 d1 d2))
  else None.
Proof.
  intros H1 H2 H3 H4 H5 H6 H7 H8. unfold JS.Date_parse, isValidDate.
  now rewrite H1, H2, H3, H4, H5, H6, H7, H8.
Qed.

Lemma toChecksumBasis_19 (yy : Z) (baseNumber : string) :
  0 <= yy <= 99 ->
  toChecksumBasis (Some (1900 + yy)) baseNumber = JS.parseInt baseNumber /\
  toChecksumBasis (Some (2000 + yy)) baseNumber = JS.parseInt ("2" ++ baseNumber).
Proof.
  intros H. unfold toChecksumBasis, JS.lt.
  replace (1900 + yy <? 2000) with true by (symmetry; apply Z.ltb_lt; lia).
  replace (2000 + yy <? 2000) with false by (symmetry; apply Z.ltb_ge; lia).
  split; reflexivity.
Qed.

Lemma checksum_matches_some (cz b : Z) :
  checksum_matches (Some cz) (Some b) = (Z.rem b 97 + cz =? 97).
Proof. reflexivity. Qed.

Section Steady.

Variable cleanUnicode : string -> string -> string * option exception.
Variable clock : nat -> Z.
Variable now : Z.

(** Every reading of the clock is [now]. *)
Hypothesis clock_now : forall n, clock n = now.

Lemma filterM_isInPast_steady {A : Type} (f : A -> string_or_number) (l : list A) :
  forall t,
  fst (filterM (fun x => isInPast clock (f x)) l t) =
  filter (fun x => JS.le (JS.Date_parse (template (f x))) (Some (now + ONE_DAY))) l.
Proof.
  induction l as [| x l IH]; intros t; cbn [filterM filter].
  - reflexivity.
  - unfold bind, ret. rewrite isInPast_eq, clock_now. specialize (IH (S t)).
    destruct (filterM _ l (S t)) as [r u]. cbn [fst] in *. rewrite IH.
    reflexivity.
Qed.

Section Digits.

Variables y1 y2 m1 m2 d1 d2 s1 s2 s3 k1 k2 : ascii.

Hypothesis all_digits_number :
  forallb JS.is_digit [y1; y2; m1; m2; d1; d2; s1; s2; s3; k1; k2] = true.

Let number := eleven y1 y2 m1 m2 d1 d2 s1 s2 s3 k1 k2.
Let base := String y1 (String y2 (String m1 (String m2 (String d1 (String d2
              (String s1 (String s2 (String s3 EmptyString)))))))).
Let yy := JS.digits2 y1 y2.
Let month := JS.digits2 m1 m2.
Let day := JS.digits2 d1 d2.
Let n := JS.parse_digits base 0.
Let cz := JS.digits2 k1 k2.
Let unknown := String.eqb (String m1 (String m2 EmptyString)) "00".

Lemma digits_of_number :
  JS.is_digit y1 = true /\ JS.is_digit y2 = true /\ JS.is_digit m1 = true /\
  JS.is_digit m2 = true /\ JS.is_digit d1 = true /\ JS.is_digit d2 = true /\
  JS.is_digit k1 = true /\ JS.is_digit k2 = true /\ isdigits base = true.
Proof.
  pose proof all_digits_number as H. cbn [forallb] in H.
  repeat (let D := fresh "D" in apply andb_prop in H as [D H]).
  unfold base, isdigits. cbn [all_digits].
  rewrite D, D0, D1, D2, D3, D4, D5, D6, D7. auto 10.
Qed.

Lemma getValidPastDates_steady (t : nat) :
  fst (getValidPastDates clock (getFirstSix number) t) =
  ((if century_accepted now false (1900 + yy) month day
    then [(JS.number_to_string (Some (1900 + yy)) ++ "-" ++
           String m1 (String m2 EmptyString) ++ "-" ++
           String d1 (String d2 EmptyString))%string]
    else []) ++
   (if century_accepted now false (2000 + yy) month day
    then [(JS.number_to_string (Some (2000 + yy)) ++ "-" ++
           String m1 (String m2 EmptyString) ++ "-" ++
           String d1 (String d2 EmptyString))%string]
    else []))%list.
Proof.
  destruct digits_of_number as (Dy1 & Dy2 & Dm1 & Dm2 & Dd1 & Dd2 & _).
  destruct (year_string y1 y2 Dy1 Dy2) as [S19 S20].
  destruct (digits4_century y1 y2) as [V19 V20].
  unfold getValidPastDates. rewrite (filterM_isInPast_steady Str).
  destruct (fields_of_eleven y1 y2 m1 m2 d1 d2 s1 s2 s3 k1 k2) as (Hf & _ & _).
  cbv zeta in Hf. fold number in Hf. rewrite Hf. cbn [item nth].
  rewrite getFullYears_two_digits by assumption. cbn [filter map].
  rewrite !isValidDateCompact_century by auto.
  rewrite !parseInt_two_digits by assumption.
  fold yy month day. unfold century_accepted.
  assert (P19 : JS.Date_parse (template (Str
            (JS.number_to_string (Some (1900 + yy)) ++ "-" ++
             String m1 (String m2 EmptyString) ++ "-" ++
             String d1 (String d2 EmptyString)))) =
          if isValidDate (Some (1900 + yy)) (Some month) (Some day)
          then Some (JS.MakeDate (1900 + yy) month day) else None).
  { unfold yy. rewrite S19. cbn [template append].
    rewrite Date_parse_day by (assumption || reflexivity). now rewrite V19. }
  assert (P20 : JS.Date_parse (template (Str
            (JS.number_to_string (Some (2000 + yy)) ++ "-" ++
             String m1 (String m2 EmptyString) ++ "-" ++
             String d1 (String d2 EmptyString)))) =
          if isValidDate (Some (2000 + yy)) (Some month) (Some day)
          then Some (JS.MakeDate (2000 + yy) month day) else None).
  { unfold yy. rewrite S20. cbn [template append].
    rewrite Date_parse_day by (assumption || reflexivity). now rewrite V20. }
  destruct (isValidDate (Some (1900 + yy)) (Some month) (Some day)) eqn:E19;
    destruct (isValidDate (Some (2000 + yy)) (Some month) (Some day)) eqn:E20;
    cbn [filter map andb app]; rewrite ?P19, ?P20; cbn [JS.le];
    repeat match goal with
           | |- context [?a <=? ?b] => destruct (a <=? b)
           end; reflexivity.
Qed.

Lemma validStructure_steady (t : nat) :
  fst (validStructure clock number t) =
  unknown || century_accepted now false (1900 + yy) month day
          || century_accepted now false (2000 + yy) month day.
Proof.
  unfold validStructure, isValidFirstSix.
  unfold number at 1. rewrite isUnknownDob_eleven by exact all_digits_number.
  fold number. unfold unknown.
  destruct (String.eqb (String m1 (String m2 EmptyString)) "00"); [reflexivity |].
  unfold isValidDob. rewrite fst_bind_ret, getValidPastDates_steady.
  destruct (century_accepted now false (1900 + yy) month day),
           (century_accepted now false (2000 + yy) month day); reflexivity.
Qed.

Lemma validChecksum_steady (t : nat) :
  fst (validChecksum clock number t) =
  (century_accepted now unknown (1900 + yy) month day && (Z.rem n 97 + cz =? 97)) ||
  (century_accepted now unknown (2000 + yy) month day &&
   (Z.rem (2000000000 + n) 97 + cz =? 97)).
Proof.
  destruct digits_of_number as (Dy1 & Dy2 & Dm1 & Dm2 & Dd1 & Dd2 & Dk1 & Dk2 & Dbase).
  pose proof (getValidPastDates_steady t) as Hdates.
  unfold yy, month, day, n, cz, unknown, number, base in *.
  destruct (year_string y1 y2 Dy1 Dy2) as [S19 S20].
  destruct (digits4_century y1 y2) as [V19 V20].
  destruct (fields_of_eleven y1 y2 m1 m2 d1 d2 s1 s2 s3 k1 k2) as (Hf & Hb & Hk).
  cbv zeta in Hf, Hb, Hk.
  destruct (toChecksumBasis_19 (JS.digits2 y1 y2)
              (String y1 (String y2 (String m1 (String m2 (String d1 (String d2
                 (String s1 (String s2 (String s3 EmptyString)))))))))
              (digits2_range y1 y2 Dy1 Dy2)) as [B19 B20].
  rewrite (parseInt_isdigits _ Dbase) in B19.
  rewrite (parseInt_prefix_two _ Dbase eq_refl) in B20.
  unfold validChecksum. rewrite fst_bind_ret, Hk.
  rewrite parseInt_two_digits by assumption.
  unfold getChecksumBases. rewrite Hb.
  rewrite isUnknownDob_eleven by exact all_digits_number.
  destruct (String.eqb (String m1 (String m2 EmptyString)) "00").
  - unfold getChecksumBasesUnknownDob.
    rewrite fst_bind_ret, (filterM_isInPast_steady Num), Hf. cbn [item nth].
    rewrite getFullYears_two_digits by assumption.
    cbn [filter template]. rewrite S19, S20.
    rewrite !Date_parse_year by (assumption || reflexivity).
    rewrite V19, V20. cbn [JS.le]. unfold century_accepted.
    destruct (JS.MakeDate (1900 + JS.digits2 y1 y2) 1 1 <=? now + ONE_DAY),
             (JS.MakeDate (2000 + JS.digits2 y1 y2) 1 1 <=? now + ONE_DAY);
      cbn [map existsb andb orb]; rewrite ?B19, ?B20, ?checksum_matches_some;
      rewrite ?orb_false_r; reflexivity.
  - unfold getChecksumBasesForStandardDob.
    rewrite fst_bind_ret, Hdates.
    destruct (century_accepted now false (1900 + JS.digits2 y1 y2)
                (JS.digits2 m1 m2) (JS.digits2 d1 d2)),
             (century_accepted now false (2000 + JS.digits2 y1 y2)
                (JS.digits2 m1 m2) (JS.digits2 d1 d2));
      cbn [app map existsb andb orb];
      rewrite ?extractYearFromDate_century by auto;
      rewrite ?B19, ?B20, ?checksum_matches_some;
      rewrite ?orb_false_r; reflexivity.
Qed.

(** X8.  With a clock that stands still at [now], the result of [validate]
    on a cleaned value of eleven digits that is not zero is decided by the
    fields read as integers.  A year [1900 + yy] or [2000 + yy] is accepted
    when the date of birth (the first of January for an unknown date of birth)
    is a calendar date not after [now] plus one day.  The result is
    [InvalidFormat] when the date of birth is known and neither year is
    accepted; it is the success result when [n % 97 + c = 97] for an accepted
    year before 2000 or [(2000000000 + n) % 97 + c = 97] for an accepted year
    from 2000 on; it is [InvalidChecksum] otherwise. *)
Theorem validate_steady_clock (input : string) (t : nat) :
  clean cleanUnicode input = (number, None) ->
  JS.le (JS.parseInt number) (Some 0) = false ->
  fst (validate cleanUnicode clock input t) =
  Return
    (let a19 := century_accepted now unknown (1900 + yy) month day in
     let a20 := century_accepted now unknown (2000 + yy) month day in
     if negb unknown && negb (a19 || a20) then Invalid InvalidFormat
     else if (a19 && (Z.rem n 97 + cz =? 97)) ||
             (a20 && (Z.rem (2000000000 + n) 97 + cz =? 97))
          then Valid number true false
          else Invalid InvalidChecksum).
Proof.
  intros Hc Hp.
  assert (Hd : isdigits number = true).
  { pose proof all_digits_number as H. unfold number, eleven, isdigits.
    cbn [all_digits]. cbn [forallb] in H. exact H. }
  unfold validate, compact. rewrite Hc, Hd, Hp.
  change (String.length number =? 11)%nat with true. cbn [negb orb].
  unfold bind.
  pose proof (validStructure_steady t) as Hs.
  pose proof validChecksum_steady as Hk.
  destruct (validStructure clock number t) as [s u]. cbn [fst] in Hs. subst s.
  specialize (Hk u). cbv zeta. unfold unknown in *.
  assert (Hfin : forall b : bool,
            fst (validChecksum clock number u) = b ->
            fst (let '(a, t') := validChecksum clock number u in
                 (if negb a then ret (Return (Invalid InvalidChecksum))
                  else ret (Return (Valid number true false))) t') =
            Return (if b then Valid number true false else Invalid InvalidChecksum)).
  { intros b <-. now destruct (validChecksum clock number u) as [[] u']. }
  destruct (String.eqb (String m1 (String m2 EmptyString)) "00");
    cbn [negb andb orb].
  - cbv beta iota. now apply Hfin.
  - destruct (century_accepted now false (1900 + yy) month day),
             (century_accepted now false (2000 + yy) month day);
      cbn [negb andb orb] in *; cbv beta iota;
      try reflexivity; now apply Hfin.
Qed.

End Digits.

End Steady.

(** *** The cutoff in the date check and in the filter of the years *)

Section Cutoff.

Variable cleanUnicode : string -> string -> string * option exception.
Variable clock : nat -> Z.

Section CutoffDigits.

Variables y1 y2 m1 m2 d1 d2 s1 s2 s3 k1 k2 : ascii.

Hypothesis all_digits_number :
  forallb JS.is_digit [y1; y2; m1; m2; d1; d2; s1; s2; s3; k1; k2] = true.

Let number := eleven y1 y2 m1 m2 d1 d2 s1 s2 s3 k1 k2.
Let base := String y1 (String y2 (String m1 (String m2 (String d1 (String d2
              (String s1 (String s2 (String s3 EmptyString)))))))).
Let yy := JS.digits2 y1 y2.
Let month := JS.digits2 m1 m2.
Let day := JS.digits2 d1 d2.
Let n := JS.parse_digits base 0.
Let unknown := String.eqb (String m1 (String m2 EmptyString)) "00".
Let date19 := String "1" (String "9" (String y1 (String y2 (String "-" (String m1
                (String m2 (String "-" (String d1 (String d2 EmptyString))))))))).
Let date20 := String "2" (String "0" (String y1 (String y2 (String "-" (String m1
                (String m2 (String "-" (String d1 (String d2 EmptyString))))))))).

(** The dates that pass the calendar check are compared with the clock in
    turn: the date in [1900 + yy] at the reading [t], the date in [2000 + yy]
    at the next reading when the first one was compared. *)
Lemma getValidPastDates_cutoff (t : nat) :
  let v19 := isValidDate (Some (1900 + yy)) (Some month) (Some day) in
  let v20 := isValidDate (Some (2000 + yy)) (Some month) (Some day) in
  let t20 := if v19 then S t else t in
  let p19 := v19 && (JS.MakeDate (1900 + yy) month day <=? clock t + ONE_DAY) in
  let p20 := v20 && (JS.MakeDate (2000 + yy) month day <=? clock t20 + ONE_DAY) in
  fst (getValidPastDates clock (getFirstSix number) t) =
  ((if p19 then [date19] else []) ++ (if p20 then [date20] else []))%list.
Proof.
  destruct (digits_of_number _ _ _ _ _ _ _ _ _ _ _ all_digits_number)
    as (Dy1 & Dy2 & Dm1 & Dm2 & Dd1 & Dd2 & _).
  unfold yy, month, day, number, date19, date20.
  destruct (year_string y1 y2 Dy1 Dy2) as [S19 S20].
  destruct (digits4_century y1 y2) as [V19 V20].
  destruct (fields_of_eleven y1 y2 m1 m2 d1 d2 s1 s2 s3 k1 k2) as (Hf & _ & _).
  cbv zeta in Hf |- *.
  unfold getValidPastDates. rewrite Hf. cbn [item nth].
  rewrite getFullYears_two_digits by assumption. cbn [filter].
  rewrite !isValidDateCompact_century by auto.
  rewrite !parseInt_two_digits by assumption.
  assert (P19 : JS.Date_parse
            (String "1" (String "9" (String y1 (String y2 (String "-" (String m1
               (String m2 (String "-" (String d1 (String d2 EmptyString)))))))))) =
          if isValidDate (Some (1900 + JS.digits2 y1 y2))
               (Some (JS.digits2 m1 m2)) (Some (JS.digits2 d1 d2))
          then Some (JS.MakeDate (1900 + JS.digits2 y1 y2)
                       (JS.digits2 m1 m2) (JS.digits2 d1 d2))
          else None).
  { rewrite Date_parse_day by (assumption || reflexivity). now rewrite V19. }
  assert (P20 : JS.Date_parse
            (String "2" (String "0" (String y1 (String y2 (String "-" (String m1
               (String m2 (String "-" (String d1 (String d2 EmptyString)))))))))) =
          if isValidDate (Some (2000 + JS.digits2 y1 y2))
               (Some (JS.digits2 m1 m2)) (Some (JS.digits2 d1 d2))
          then Some (JS.MakeDate (2000 + JS.digits2 y1 y2)
                       (JS.digits2 m1 m2) (JS.digits2 d1 d2))
          else None).
  { rewrite Date_parse_day by (assumption || reflexivity). now rewrite V20. }
  destruct (isValidDate (Some (1900 + JS.digits2 y1 y2))
              (Some (JS.digits2 m1 m2)) (Some (JS.digits2 d1 d2))) eqn:E19;
    destruct (isValidDate (Some (2000 + JS.digits2 y1 y2))
                (Some (JS.digits2 m1 m2)) (Some (JS.digits2 d1 d2))) eqn:E20;
    cbn [filter map filterM andb]; unfold bind, ret;
    rewrite ?isInPast_eq; cbn [template]; rewrite ?S19, ?S20; cbn [append];
    rewrite ?P19, ?P20; cbn [JS.le fst];
    repeat match goal with
           | |- context [?a <=? ?b] => destruct (a <=? b)
           end; reflexivity.
Qed.

Lemma extractYearFromDate_dates :
  extractYearFromDate date19 = Some (1900 + yy) /\
  extractYearFromDate date20 = Some (2000 + yy).
Proof.
  destruct (digits_of_number _ _ _ _ _ _ _ _ _ _ _ all_digits_number)
    as (Dy1 & Dy2 & _).
  destruct (year_string y1 y2 Dy1 Dy2) as [S19 S20].
  pose proof (extractYearFromDate_century 1900 y1 y2
    (String m1 (String m2 (String "-" (String d1 (String d2 EmptyString)))))
    (or_introl eq_refl) Dy1 Dy2) as H19.
  pose proof (extractYearFromDate_century 2000 y1 y2
    (String m1 (String m2 (String "-" (String d1 (String d2 EmptyString)))))
    (or_intror eq_refl) Dy1 Dy2) as H20.
  rewrite S19 in H19. rewrite S20 in H20. cbn [append] in H19, H20.
  unfold date19, date20, yy. split; assumption.
Qed.

Lemma bases_of_number :
  toChecksumBasis (Some (1900 + yy)) (getBaseNumber number) = Some n /\
  toChecksumBasis (Some (2000 + yy)) (getBaseNumber number) = Some (2000000000 + n) /\
  JS.parseInt (getBaseNumber number) = Some n.
Proof.
  destruct (digits_of_number _ _ _ _ _ _ _ _ _ _ _ all_digits_number)
    as (Dy1 & Dy2 & _ & _ & _ & _ & _ & _ & Dbase).
  destruct (fields_of_eleven y1 y2 m1 m2 d1 d2 s1 s2 s3 k1 k2) as (_ & Hb & _).
  cbv zeta in Hb. unfold number, yy, n, base. rewrite Hb.
  destruct (toChecksumBasis_19 (JS.digits2 y1 y2)
              (String y1 (String y2 (String m1 (String m2 (String d1 (String d2
                 (String s1 (String s2 (String s3 EmptyString)))))))))
              (digits2_range y1 y2 Dy1 Dy2)) as [B19 B20].
  rewrite (parseInt_isdigits _ Dbase) in B19.
  rewrite (parseInt_prefix_two _ Dbase eq_refl) in B20.
  split; [exact B19 |]. split; [exact B20 |]. now apply parseInt_isdigits.
Qed.

(** The candidate years of an unknown date of birth are compared with the
    clock in turn, by their first of January. *)
Lemma unknown_bases_cutoff (t : nat) :
  unknown = true ->
  getChecksumBases clock number t =
  (((if JS.MakeDate (1900 + yy) 1 1 <=? clock t + ONE_DAY then [Some n] else []) ++
    (if JS.MakeDate (2000 + yy) 1 1 <=? clock (S t) + ONE_DAY
     then [Some (2000000000 + n)] else []))%list, S (S t)).
Proof.
  intros Hu.
  destruct (digits_of_number _ _ _ _ _ _ _ _ _ _ _ all_digits_number)
    as (Dy1 & Dy2 & _).
  destruct bases_of_number as (B19 & B20 & _).
  unfold unknown, yy, n, base, number in *.
  destruct (year_string y1 y2 Dy1 Dy2) as [S19 S20].
  destruct (digits4_century y1 y2) as [V19 V20].
  destruct (fields_of_eleven y1 y2 m1 m2 d1 d2 s1 s2 s3 k1 k2) as (Hf & _ & _).
  cbv zeta in Hf.
  unfold getChecksumBases.
  rewrite isUnknownDob_eleven by exact all_digits_number. rewrite Hu.
  unfold getChecksumBasesUnknownDob. rewrite Hf. cbn [item nth].
  rewrite getFullYears_two_digits by assumption.
  cbn [filterM]. unfold bind, ret. rewrite !isInPast_eq. cbn [template].
  rewrite S19, S20. rewrite !Date_parse_year by (assumption || reflexivity).
  rewrite V19, V20. cbn [JS.le].
  destruct (JS.MakeDate (1900 + JS.digits2 y1 y2) 1 1 <=? clock t + ONE_DAY),
           (JS.MakeDate (2000 + JS.digits2 y1 y2) 1 1 <=? clock (S t) + ONE_DAY);
    cbn [map app]; rewrite ?B19, ?B20; reflexivity.
Qed.

(** C4, as amended.  In the date check of the structure, in the bases of a
    standard date of birth and in the filter of the candidate years of an
    unknown date of birth, a date is kept exactly when its time value is at
    most the reading of the clock plus one day: a date strictly later than
    that cutoff is rejected, a date equal to the cutoff counts as past. *)
Theorem past_date_cutoff (t : nat) :
  let v19 := isValidDate (Some (1900 + yy)) (Some month) (Some day) in
  let v20 := isValidDate (Some (2000 + yy)) (Some month) (Some day) in
  let t20 := if v19 then S t else t in
  let p19 := v19 && (JS.MakeDate (1900 + yy) month day <=? clock t + ONE_DAY) in
  let p20 := v20 && (JS.MakeDate (2000 + yy) month day <=? clock t20 + ONE_DAY) in
  fst (getValidPastDates clock (getFirstSix number) t) =
    ((if p19 then [date19] else []) ++ (if p20 then [date20] else []))%list /\
  (unknown = false ->
   fst (validStructure clock number t) = p19 || p20 /\
   fst (getChecksumBases clock number t) =
     ((if p19 then [Some n] else []) ++
      (if p20 then [Some (2000000000 + n)] else []))%list) /\
  (unknown = true ->
   fst (getChecksumBases clock number t) =
     ((if JS.MakeDate (1900 + yy) 1 1 <=? clock t + ONE_DAY then [Some n] else []) ++
      (if JS.MakeDate (2000 + yy) 1 1 <=? clock (S t) + ONE_DAY
       then [Some (2000000000 + n)] else []))%list).
Proof.
  cbv zeta. pose proof (getValidPastDates_cutoff t) as Hdates. cbv zeta in Hdates.
  split; [exact Hdates |]. split.
  - intros Hu. split.
    + unfold validStructure, isValidFirstSix.
      unfold number at 1. rewrite isUnknownDob_eleven by exact all_digits_number.
      fold number. unfold unknown in Hu. rewrite Hu.
      unfold isValidDob. rewrite fst_bind_ret, Hdates.
      destruct (_ && _), (_ && _); reflexivity.
    + destruct bases_of_number as (B19 & B20 & _).
      destruct extractYearFromDate_dates as [X19 X20].
      unfold getChecksumBases.
      unfold number at 1. rewrite isUnknownDob_eleven by exact all_digits_number.
      fold number. unfold unknown in Hu. rewrite Hu.
      unfold getChecksumBasesForStandardDob. rewrite fst_bind_ret, Hdates.
      destruct (_ && _), (_ && _); cbn [app map];
        rewrite ?X19, ?X20, ?B19, ?B20; reflexivity.
  - intros Hu. now rewrite unknown_bases_cutoff.
Qed.

End CutoffDigits.

(** C5, as amended.  For a cleaned value of eleven digits with a positive
    integer value whose month is ["00"], whatever its year and day digits
    are, [validStructure] accepts the value without a reading of the clock,
    and [validate] then decides by the checksum alone.  The candidate bases
    are [n] when the first of January of [1900 + yy] is not after the clock
    reading plus one day, and [2000000000 + n] when the first of January of
    [2000 + yy] is not after the next clock reading plus one day; [validate]
    succeeds when [b % 97 + checksum = 97] for one of them and returns
    [InvalidChecksum] otherwise. *)
Theorem unknown_dob_validate (input number : string) (t : nat) :
  clean cleanUnicode input = (number, None) ->
  isdigits number = true ->
  String.length number = 11%nat ->
  JS.le (JS.parseInt number) (Some 0) = false ->
  item 1 (toDateArray (getFirstSix number)) = "00" ->
  exists yy n cz : Z,
    JS.parseInt (item 0 (toDateArray (getFirstSix number))) = Some yy /\
    0 <= yy <= 99 /\
    JS.parseInt (getBaseNumber number) = Some n /\
    getChecksum number = Some cz /\
    validStructure clock number t = (true, t) /\
    let in19 := JS.MakeDate (1900 + yy) 1 1 <=? clock t + ONE_DAY in
    let in20 := JS.MakeDate (2000 + yy) 1 1 <=? clock (S t) + ONE_DAY in
    getChecksumBases clock number t =
      (((if in19 then [Some n] else []) ++
        (if in20 then [Some (2000000000 + n)] else []))%list, S (S t)) /\
    validate cleanUnicode clock input t =
      (Return (if (in19 && (Z.rem n 97 + cz =? 97)) ||
                  (in20 && (Z.rem (2000000000 + n) 97 + cz =? 97))
               then Valid number true false
               else Invalid InvalidChecksum), S (S t)).
Proof.
  intros Hc Hd Hl Hp Hm.
  destruct (eleven_digits number Hd Hl)
    as (y1 & y2 & m1 & m2 & d1 & d2 & s1 & s2 & s3 & k1 & k2 & -> & Hall).
  destruct (digits_of_number _ _ _ _ _ _ _ _ _ _ _ Hall)
    as (Dy1 & Dy2 & _ & _ & _ & _ & Dk1 & Dk2 & _).
  destruct (fields_of_eleven y1 y2 m1 m2 d1 d2 s1 s2 s3 k1 k2) as (Hf & _ & Hk).
  cbv zeta in Hf, Hk. rewrite Hf in Hm |- *. cbn [item nth] in Hm |- *.
  assert (Hu : String.eqb (String m1 (String m2 EmptyString)) "00" = true)
    by now apply String.eqb_eq.
  destruct (bases_of_number y1 y2 m1 m2 d1 d2 s1 s2 s3 k1 k2 Hall) as (_ & _ & Hn).
  pose proof (unknown_bases_cutoff y1 y2 m1 m2 d1 d2 s1 s2 s3 k1 k2 Hall t Hu) as Hb.
  pose proof (isUnknownDob_eleven _ _ _ _ _ _ _ _ _ _ _ Hall) as Hunk.
  rewrite Hu in Hunk.
  exists (JS.digits2 y1 y2).
  eexists. exists (JS.digits2 k1 k2).
  split; [now apply parseInt_two_digits |].
  split; [now apply digits2_range |].
  split; [exact Hn |].
  split; [rewrite Hk; now apply parseInt_two_digits |].
  assert (Hs : validStructure clock (eleven y1 y2 m1 m2 d1 d2 s1 s2 s3 k1 k2) t =
               (true, t)).
  { unfold validStructure, isValidFirstSix. now rewrite Hunk. }
  split; [exact Hs |]. cbv zeta. split; [exact Hb |].
  unfold validate, compact. rewrite Hc, Hd, Hp, Hl. cbn [negb orb Nat.eqb].
  unfold bind at 1. rewrite Hs. cbn [negb].
  unfold bind at 1, validChecksum. unfold bind at 1. rewrite Hb.
  rewrite Hk, parseInt_two_digits by assumption. unfold ret.
  destruct (JS.MakeDate (1900 + JS.digits2 y1 y2) 1 1 <=? clock t + ONE_DAY),
           (JS.MakeDate (2000 + JS.digits2 y1 y2) 1 1 <=? clock (S t) + ONE_DAY);
    cbn [app existsb andb orb]; rewrite ?checksum_matches_some, ?orb_false_r;
    repeat match goal with
           | |- context [?a =? ?b] => destruct (a =? b)
           end; reflexivity.
Qed.

End Cutoff.

(** *** The cutoff at concrete inputs *)

Lemma past_date_cutoff_witness :
  fst (getValidPastDates eve_clock (getFirstSix "85031512369") 0%nat) = ["1985-03-15"] /\
  fst (getValidPastDates (fun _ => 479606399999) (getFirstSix "85031512369") 0%nat) = [] /\
  fst (getChecksumBases new_year_eve_clock "85009912350" 0%nat) = [Some 850099123] /\
  fst (getChecksumBases (fun _ => 473299199999) "85009912350" 0%nat) = [].
Proof.
  destruct (past_date_cutoff eve_clock
              "8"%char "5"%char "0"%char "3"%char "1"%char "5"%char
              "1"%char "2"%char "3"%char "6"%char "9"%char eq_refl 0%nat)
    as (H1 & _ & _).
  destruct (past_date_cutoff (fun _ => 479606399999)
              "8"%char "5"%char "0"%char "3"%char "1"%char "5"%char
              "1"%char "2"%char "3"%char "6"%char "9"%char eq_refl 0%nat)
    as (H2 & _ & _).
  destruct (past_date_cutoff new_year_eve_clock
              "8"%char "5"%char "0"%char "0"%char "9"%char "9"%char
              "1"%char "2"%char "3"%char "5"%char "0"%char eq_refl 0%nat)
    as (_ & _ & H3).
  destruct (past_date_cutoff (fun _ => 473299199999)
              "8"%char "5"%char "0"%char "0"%char "9"%char "9"%char
              "1"%char "2"%char "3"%char "5"%char "0"%char eq_refl 0%nat)
    as (_ & _ & H4).
  split; [exact H1 |]. split; [exact H2 |].
  split; [exact (H3 eq_refl) | exact (H4 eq_refl)].
Defined.

Lemma unknown_dob_validate_witness :
  validate sample_cleanUnicode sample_clock "850099-123.50" 0%nat =
    (Return (Valid "85009912350" true false), 2%nat) /\
  getChecksumBases sample_clock "85009912350" 0%nat = ([Some 850099123], 2%nat) /\
  validate sample_cleanUnicode sample_clock "850099-123.45" 0%nat =
    (Return (Invalid InvalidChecksum), 2%nat).
Proof.
  destruct (unknown_dob_validate sample_cleanUnicode sample_clock
              "850099-123.50" "85009912350" 0%nat
              eq_refl eq_refl eq_refl eq_refl eq_refl)
    as (yy & n & cz & Hy & _ & Hn & Hcz & _ & Hb & Hv).
  vm_compute in Hy, Hn, Hcz.
  injection Hy as <-. injection Hn as <-. injection Hcz as <-.
  destruct (unknown_dob_validate sample_cleanUnicode sample_clock
              "850099-123.45" "85009912345" 0%nat
              eq_refl eq_refl eq_refl eq_refl eq_refl)
    as (yy & n & cz & Hy & _ & Hn & Hcz & _ & _ & Hw).
  vm_compute in Hy, Hn, Hcz.
  injection Hy as <-. injection Hn as <-. injection Hcz as <-.
  split; [exact Hv |]. split; [exact Hb | exact Hw].
Defined.

(** *** The further properties at concrete inputs *)

Lemma invalid_length_exactly_witness :
  fst (validate sample_cleanUnicode sample_clock "12345-67890" 0%nat) =
    Return (Invalid InvalidLength) /\
  fst (validate sample_cleanUnicode sample_clock "00-00" 0%nat) <>
    Return (Invalid InvalidLength).
Proof.
  split.
  - apply (invalid_length_exactly sample_cleanUnicode sample_clock
             "12345-67890" "1234567890" 0%nat eq_refl).
    split; [reflexivity |]. split; [reflexivity |]. simpl. lia.
  - intros H.
    apply (invalid_length_exactly sample_cleanUnicode sample_clock
             "00-00" "0000" 0%nat eq_refl) in H.
    destruct H as (_ & H & _). discriminate H.
Defined.

Lemma validate_success_canonical_witness :
  isdigits "85031512369" = true /\ String.length "85031512369" = 11%nat.
Proof.
  assert (H : validate sample_cleanUnicode sample_clock "85.03.15-123.69" 0%nat =
              (Return (Valid "85031512369" true false), 4%nat))
    by (vm_compute; reflexivity).
  destruct (validate_success_canonical sample_cleanUnicode sample_clock
              "85.03.15-123.69" "85031512369" true false 0%nat 4%nat H)
    as (Hd & Hl & _).
  split; [exact Hd | exact Hl].
Defined.

Lemma validate_success_checksum_witness :
  exists n cz : Z,
    JS.parseInt (getBaseNumber "85031512369") = Some n /\
    0 <= n < 1000000000 /\
    getChecksum "85031512369" = Some cz /\
    1 <= cz <= 97 /\
    ((n + cz) mod 97 = 0 \/ (2000000000 + n + cz) mod 97 = 0).
Proof.
  assert (H : validate sample_cleanUnicode sample_clock "85.03.15-123.69" 0%nat =
              (Return (Valid "85031512369" true false), 4%nat))
    by (vm_compute; reflexivity).
  exact (validate_success_checksum sample_cleanUnicode sample_clock
           "85.03.15-123.69" "85031512369" true false 0%nat 4%nat H).
Defined.

Lemma checksum_rejects_shifted_basis_witness :
  checksum_matches (Some 69) (Some 850315133) = false /\
  checksum_matches (Some 69) (Some 850315213) = false.
Proof.
  split.
  - apply (checksum_rejects_shifted_basis 850315123 69 1 1); try lia. reflexivity.
  - apply (checksum_rejects_shifted_basis 850315123 69 9 1); try lia. reflexivity.
Defined.

Lemma validate_stays_valid_witness :
  validate sample_cleanUnicode sample_clock "85.03.15-123.69" 0%nat =
  (Return (Valid "85031512369" true false), 4%nat).
Proof.
  apply (validate_stays_valid sample_cleanUnicode eve_clock sample_clock).
  - intros n. unfold eve_clock, sample_clock. lia.
  - vm_compute. reflexivity.
Defined.

Lemma validate_steady_clock_witness :
  fst (validate sample_cleanUnicode sample_clock "85.03.15-123.69" 0%nat) =
  Return (Valid "85031512369" true false).
Proof.
  exact (validate_steady_clock sample_cleanUnicode sample_clock 1700000000000
           (fun n => eq_refl)
           "8"%char "5"%char "0"%char "3"%char "1"%char "5"%char
           "1"%char "2"%char "3"%char "6"%char "9"%char eq_refl
           "85.03.15-123.69" 0%nat eq_refl eq_refl).
Defined.

End NN.
